(** * WorkspaceEditingService

    A shallow embedding of
    [src/vs/workbench/services/workspace/node/workspaceEditingService.ts]
    and the properties its specification states about it.

    The service orchestrates collaborators (window host, file service,
    extension host, storage, configuration).  Each method is embedded as a
    computation in a small promise monad: it reads the collaborators'
    answers from a [World], appends every call it makes on a collaborator
    to a trace of [Event]s, and settles as [Resolved] or [Rejected]. *)

From stdpp Require Import base gmap strings list.

Local Open Scope string_scope.
Local Open Scope list_scope.
Local Open Scope Z_scope.

(** ** Enumerations of the imported modules *)

(** [WorkbenchState] of vs/platform/workspace/common/workspace. *)
Inductive WorkbenchState := EMPTY | FOLDER | WORKSPACE.

(** [ShutdownReason] of vs/platform/lifecycle/common/lifecycle.  The service
    names [CLOSE] and [LOAD]; the other members stand for every other
    reason. *)
Inductive ShutdownReason := CLOSE | QUIT | RELOAD | LOAD.

(** [ConfigurationScope] of the configuration registry.  The service names
    [WINDOW]; section 3 of the specification names machine and resource. *)
Inductive ConfigurationScope := MACHINE | WINDOW | RESOURCE.

(** [JSONEditingErrorCode] of the JSON editing service. *)
Inductive JSONEditingErrorCode := ERROR_FILE_DIRTY | ERROR_INVALID_FILE.

(** [Severity] of the notification service, as far as the service uses it. *)
Inductive Severity := SeverityWarning | SeverityError.

(** The local enum [ConfirmResult] of [saveUntitedBeforeShutdown]. *)
Inductive ConfirmResult := SAVE | DONT_SAVE | CANCEL.

(** [isWindows], [isMacintosh] and [isLinux] of vs/base/common/platform are
    constants of the running process; at most one of them holds. *)
Inductive Platform := PlatformWindows | PlatformMacintosh | PlatformLinux | PlatformOther.

Definition isWindows (p : Platform) : bool :=
  match p with PlatformWindows => true | _ => false end.
Definition isMacintosh (p : Platform) : bool :=
  match p with PlatformMacintosh => true | _ => false end.
Definition isLinux (p : Platform) : bool :=
  match p with PlatformLinux => true | _ => false end.

#[global] Instance WorkbenchState_eq_dec : EqDecision WorkbenchState.
Proof. solve_decision. Defined.
#[global] Instance ShutdownReason_eq_dec : EqDecision ShutdownReason.
Proof. solve_decision. Defined.
#[global] Instance ConfigurationScope_eq_dec : EqDecision ConfigurationScope.
Proof. solve_decision. Defined.
#[global] Instance ConfirmResult_eq_dec : EqDecision ConfirmResult.
Proof. solve_decision. Defined.

(** ** Values *)

(** A setting's value: a JSON scalar, or an array or object kept as its
    JSON text. *)
Inductive JsonValue :=
| JNull
| JBool (b : bool)
| JNumber (n : Z)
| JString (s : string)
| JStructured (json : string).

(** An [Error] object as the service looks at it: [code] is the
    [JSONEditingErrorCode] of a [JSONEditingError] and is absent on any other
    error; [message] is its text. *)
Record ErrorObject := { code : option JSONEditingErrorCode; message : string }.

(** What a promise is rejected with: the service rejects with [null] in
    places, everything else rejects with an error object. *)
Inductive Rejection :=
| RejectNull
| RejectError (e : ErrorObject).

(** [new Error(message)] *)
Definition newError (msg : string) : Rejection :=
  RejectError {| code := None; message := msg |}.

(** How a promise settles. *)
Inductive Result (A : Type) :=
| Resolved (a : A)
| Rejected (r : Rejection).
Arguments Resolved {A} a.
Arguments Rejected {A} r.

(** A promise object that was created but is not awaited: the holder has the
    object, not the value. *)
Inductive Promise (A : Type) := PromiseOf (settled : Result A).
Arguments PromiseOf {A} settled.

(** JavaScript's ToBoolean on the values the service tests. *)
Class Truthy (A : Type) := toBoolean : A -> bool.

(** a string is truthy unless empty *)
#[global] Instance string_truthy : Truthy string :=
  fun s => match s with EmptyString => false | _ => true end.
(** every object is truthy, a promise included *)
#[global] Instance promise_truthy {A} : Truthy (Promise A) := fun _ => true.
(** [undefined] is falsy *)
#[global] Instance option_truthy {A} `{Truthy A} : Truthy (option A) :=
  fun o => match o with Some a => toBoolean a | None => false end.

(** ** Arrays *)

(** The clamping of a relative index that [slice] and [splice] share. *)
Definition relativeIndex (len i : Z) : Z :=
  if i <? 0 then Z.max (len + i) 0 else Z.min i len.

(** [array.slice(start, end)] *)
Definition js_slice {A} (l : list A) (start stop : Z) : list A :=
  let len := Z.of_nat (length l) in
  let k := relativeIndex len start in
  let final := relativeIndex len stop in
  take (Z.to_nat (final - k)) (drop (Z.to_nat k) l).

(** [array.splice(start, 0, ...items)]: the array after the insertion. *)
Definition js_splice_insert {A} (l : list A) (start : Z) (items : list A) : list A :=
  let k := Z.to_nat (relativeIndex (Z.of_nat (length l)) start) in
  take k l ++ items ++ drop k l.

(** [array[i]], [undefined] outside the array. *)
Definition js_index {A} (l : list A) (i : Z) : option A :=
  if i <? 0 then None else l !! Z.to_nat i.

(** [array.indexOf(x)] for an array whose elements are told apart by [same]. *)
Fixpoint js_indexOf {A} (same : A -> bool) (l : list A) : Z :=
  match l with
  | [] => -1
  | y :: r => if same y then 0
              else let i := js_indexOf same r in if i <? 0 then -1 else i + 1
  end.

(** Modelled from the spec: [distinct] of vs/base/common/arrays is not among
    the sources; section 4.1 says it de-duplicates by the key, preserving
    first occurrence order.  [seen] holds the keys met so far. *)
Fixpoint distinct_from {A} (keyFn : A -> string) (seen : list string) (l : list A) : list A :=
  match l with
  | [] => []
  | x :: r =>
      if bool_decide (keyFn x ∈ seen) then distinct_from keyFn seen r
      else x :: distinct_from keyFn (keyFn x :: seen) r
  end.

Definition distinct {A} (l : list A) (keyFn : A -> string) : list A :=
  distinct_from keyFn [] l.

(** ** Helpers imported by the service *)

(** The pure helpers the service imports and whose code is not among the
    sources, over the type [URI] of vs/base/common/uri. *)
Class Imported (URI : Type) := {
  (** vs/base/common/resources *)
  getComparisonKey : URI -> string;
  isEqualOrParent : URI -> URI -> bool;
  basename : URI -> string;
  (** vs/platform/workspaces/common/workspaces *)
  rewriteWorkspaceFileForNewLocation : string -> URI -> URI -> string;
  (** vs/base/common/labels *)
  mnemonicButtonLabel : string -> string;
}.

Section Service.

Context {URI : Type} `{!Imported URI}.

(** Modelled from the spec: [isEqual] of vs/base/common/resources is not
    among the sources; section 3 says location equality is equality of the
    normalized comparison key. *)
Definition isEqual (first second : URI) : bool :=
  bool_decide (getComparisonKey first = getComparisonKey second).

(** ** Data model *)

Record IWorkspaceIdentifier := { id : string; configPath : URI }.

Record WorkspaceFolder := { folder_uri : URI; folder_name : string }.

Record IWorkspaceFolderCreationData := { uri : URI; name : option string }.

(** The workspace the context service holds. *)
Record Workspace := {
  workspace_id : string;
  folders : list WorkspaceFolder;
  configuration : option URI;
}.

(** An entry of [windowsService.getWindows()]. *)
Record IWindow := { window_id : Z; window_workspace : option IWorkspaceIdentifier }.

Record IEnterWorkspaceResult := {
  workspace : IWorkspaceIdentifier;
  backupPath : option string;
}.

Record IConfigurationPropertySchema := { scope : option ConfigurationScope }.

(** A request to one of the context service's folder edits. *)
Inductive FolderEdit :=
| EditUpdateFolders (foldersToAdd : list IWorkspaceFolderCreationData)
                    (foldersToDelete : list URI) (index : option Z)
| EditAddFolders (foldersToAdd : list IWorkspaceFolderCreationData) (index : option Z)
| EditRemoveFolders (foldersToRemove : list URI).

(** How [contextService.initialize(workspace, postInitialisationTask)] ends:
    it completes and has run the task, or it fails before the task, or it
    fails after it. *)
Inductive InitializeOutcome :=
| InitializeDone
| InitializeFailed (r : Rejection)
| InitializeFailedAfterTask (r : Rejection).

(** ** Calls on collaborators *)

Inductive Event :=
| EvGetWindowCount
| EvGetWindows
| EvDialogShow (severity : Severity) (message : string) (buttons : list string)
               (detail : string) (cancelId : Z)
| EvShowSaveDialog
| EvShowMessageBox (message detail : string)
| EvNotifyError (message : string)
| EvNotifyPrompt (severity : Severity) (message : string) (action : string)
| EvDeleteUntitledWorkspace (w : IWorkspaceIdentifier)
| EvGetWorkspaceIdentifier (path : URI)
| EvAddRecentlyOpened (label : string) (w : IWorkspaceIdentifier)
| EvCreateUntitledWorkspace (fs : list IWorkspaceFolderCreationData)
                            (remoteAuthority : option string)
| EvResolveContent (resource : URI)
| EvCreateFile (resource : URI) (contents : string) (overwrite : bool)
| EvFolderEdit (edit : FolderEdit)
| EvStopExtensionHost
| EvStartExtensionHost
| EvReloadWindow
| EvEnterWorkspace (path : URI)
| EvMigrateStorage (toWorkspace : IWorkspaceIdentifier)
| EvJsonWrite (resource : URI) (key : string) (value : gmap string JsonValue) (save : bool)
| EvBackupInitialize (backupPath : option string)
| EvContextInitialize (w : IWorkspaceIdentifier).

(** ** The world around the service

    What the injected services hold and how their calls answer.  A call
    that can fail answers with a [Result]; lookups and the user's choices
    are plain values. *)
Record World := {
  (** contextService *)
  getWorkspace : Workspace;
  contextService_edit : FolderEdit -> option ErrorObject;
  contextService_initialize : IWorkspaceIdentifier -> InitializeOutcome;
  (** environmentService *)
  extensionTestsLocationURI : option URI;
  untitledWorkspacesHome : URI;
  (** vs/base/common/platform *)
  platform : Platform;
  (** windowService *)
  remoteAuthority : option string;
  windowService_enterWorkspace : URI -> Result (option IEnterWorkspaceResult);
  (** windowsService *)
  getWindowCount : Z;
  getWindows : list IWindow;
  (** dialogService, fileDialogService: what the user picks *)
  dialogService_show : Z;
  showSaveDialog : option URI;
  (** workspaceService, labelService *)
  createUntitledWorkspace :
    list IWorkspaceFolderCreationData -> option string -> Result IWorkspaceIdentifier;
  getWorkspaceIdentifier : URI -> IWorkspaceIdentifier;
  getWorkspaceLabel : IWorkspaceIdentifier -> string;
  (** fileSystemService *)
  resolveContent : URI -> Result string;
  createFile : URI -> string -> Result unit;
  (** storageService, jsonEditingService *)
  storage_migrate : IWorkspaceIdentifier -> Result unit;
  jsonEditingService_write : URI -> gmap string JsonValue -> Result unit;
  (** [backupFileService instanceof BackupFileService] *)
  backupFileService_isNode : bool;
  (** configuration registry and configurationService *)
  getConfigurationProperties : gmap string IConfigurationPropertySchema;
  keys_workspace : list string;
  inspect_workspace : string -> JsonValue;
}.

(** Modelled from the spec: [getWorkbenchState] of the context service is
    not among the sources; section 3 says the presence of a workspace file
    and the folder count determine the state. *)
Definition getWorkbenchState (w : World) : WorkbenchState :=
  match configuration (getWorkspace w) with
  | Some _ => WORKSPACE
  | None => match folders (getWorkspace w) with
            | [_] => FOLDER
            | _ => EMPTY
            end
  end.

(** ** The promise monad *)

(** What one call of the service has done so far: the calls it made, and the
    local [extensionHostStarted] of [enterWorkspace]. *)
Record Session := { trace : list Event; extensionHostStarted : bool }.

Definition M (A : Type) : Type := World -> Session -> Session * Result A.

Definition ret {A} (a : A) : M A := fun _ s => (s, Resolved a).

Definition reject {A} (r : Rejection) : M A := fun _ s => (s, Rejected r).

Definition bind {A B} (m : M A) (k : A -> M B) : M B :=
  fun w s =>
    match m w s with
    | (s', Resolved a) => k a w s'
    | (s', Rejected r) => (s', Rejected r)
    end.

(** [promise.then(onFulfilled, onRejected)]: [onRejected] sees the rejection
    of [promise] only. *)
Definition then_ {A B} (m : M A) (onFulfilled : A -> M B) (onRejected : Rejection -> M B) : M B :=
  fun w s =>
    match m w s with
    | (s', Resolved a) => onFulfilled a w s'
    | (s', Rejected r) => onRejected r w s'
    end.

(** A call whose promise is taken as an object and not awaited.  The calls
    it makes are recorded where it is started; the caller goes on with the
    promise object, whatever it settles to. *)
Definition unawaited {A} (m : M A) : M (Promise A) :=
  fun w s => let '(s', r) := m w s in (s', Resolved (PromiseOf r)).

Definition ask : M World := fun w s => (s, Resolved w).

Definition emit (e : Event) : M unit :=
  fun _ s => ({| trace := trace s ++ [e]; extensionHostStarted := extensionHostStarted s |},
              Resolved tt).

(** A call on a collaborator whose promise is awaited. *)
Definition call {A} (e : Event) (answer : World -> Result A) : M A :=
  fun w s => ({| trace := trace s ++ [e]; extensionHostStarted := extensionHostStarted s |},
              answer w).

Definition get_extensionHostStarted : M bool :=
  fun _ s => (s, Resolved (extensionHostStarted s)).

Definition set_extensionHostStarted (b : bool) : M unit :=
  fun _ s => ({| trace := trace s; extensionHostStarted := b |}, Resolved tt).

Definition when (b : bool) (m : M unit) : M unit := if b then m else ret tt.

(** The calls of a computation started afresh, and how it settles. *)
Definition run {A} (m : M A) (w : World) : list Event * Result A :=
  let '(s, r) := m w {| trace := []; extensionHostStarted := false |} in (trace s, r).

Notation "x <- m ;; k" := (bind m (fun x => k))
  (at level 100, m at next level, right associativity).
Notation "m ;; k" := (bind m (fun _ => k))
  (at level 100, right associativity).

(** ** The service *)

(** every [URI] is an object *)
#[local] Instance uri_truthy : Truthy URI := fun _ => true.

(** A button of the shutdown prompt. *)
Record Button := { label : string; result : ConfirmResult }.

(** Reading a property of [null] or [undefined] throws. *)
Definition typeError {A} (what : string) : M A :=
  reject (newError ("TypeError: Cannot read property '" +:+ what +:+ "' of undefined")).

(** [this.contextService.getWorkspace().folders] *)
Definition workspace_folders (w : World) : list WorkspaceFolder :=
  folders (getWorkspace w).

Definition getCurrentWorkspaceIdentifier (w : World) : option IWorkspaceIdentifier :=
  let workspace := getWorkspace w in
  match configuration workspace with
  | Some c => Some {| id := workspace_id workspace; configPath := c |}
  | None => None
  end.

Definition pickNewWorkspacePath : M (option URI) :=
  call EvShowSaveDialog (fun w => Resolved (showSaveDialog w)).

Definition saveWorkspaceAs (workspace : IWorkspaceIdentifier) (targetConfigPathURI : URI) : M unit :=
  let configPathURI := configPath workspace in
  (* Return early if target is same as source *)
  if isEqual configPathURI targetConfigPathURI then ret tt
  else
    raw <- call (EvResolveContent configPathURI) (fun w => resolveContent w configPathURI) ;;
    let newRawWorkspaceContents :=
      rewriteWorkspaceFileForNewLocation raw configPathURI targetConfigPathURI in
    call (EvCreateFile targetConfigPathURI newRawWorkspaceContents true)
         (fun w => createFile w targetConfigPathURI newRawWorkspaceContents).

Definition isValidTargetWorkspacePath (path : URI) : M bool :=
  windows <- call EvGetWindows (fun w => Resolved (getWindows w)) ;;
  (* Prevent overwriting a workspace that is currently opened in another window *)
  if existsb (fun window =>
                match window_workspace window with
                | Some workspace => isEqual (configPath workspace) path
                | None => false
                end) windows
  then
    emit (EvShowMessageBox
            ("Unable to save workspace '" +:+ basename path +:+ "'")
            "The workspace is already opened in another window. Please close that window first and then try again.") ;;
    ret false
  else ret true.

Definition askToOpenWorkspaceConfigurationFile (message : string) : M unit :=
  emit (EvNotifyPrompt SeverityError message "Open Workspace Configuration").

Definition onInvalidWorkspaceConfigurationFileError : M unit :=
  askToOpenWorkspaceConfigurationFile
    "Unable to write into workspace configuration file. Please open the file to correct errors/warnings in it and try again.".

Definition onWorkspaceConfigurationFileDirtyError : M unit :=
  askToOpenWorkspaceConfigurationFile
    "Unable to write into workspace configuration file because the file is dirty. Please save it and try again.".

Definition handleWorkspaceConfigurationEditingError (error : ErrorObject) : M unit :=
  match code error with
  | Some ERROR_INVALID_FILE => onInvalidWorkspaceConfigurationFileError
  | Some ERROR_FILE_DIRTY => onWorkspaceConfigurationFileDirtyError
  | None => emit (EvNotifyError (message error))
  end.

(** One of [contextService.updateFolders], [addFolders], [removeFolders]. *)
Definition contextService_call (edit : FolderEdit) : M unit :=
  call (EvFolderEdit edit)
       (fun w => match contextService_edit w edit with
                 | None => Resolved tt
                 | Some e => Rejected (RejectError e)
                 end).

(** The handler [error => donotNotifyError ? Promise.reject(error) :
    this.handleWorkspaceConfigurationEditingError(error)]. *)
Definition onEditRejected (donotNotifyError : bool) (error : Rejection) : M unit :=
  if donotNotifyError then reject error
  else match error with
       | RejectError e => handleWorkspaceConfigurationEditingError e
       | RejectNull => typeError "code"
       end.

Definition startExtensionHost : M unit :=
  w <- ask ;;
  when (toBoolean (remoteAuthority w)) (emit EvReloadWindow) ;;
  emit EvStartExtensionHost ;;
  set_extensionHostStarted true.

(** Modelled from the spec: [initialize] of the context service is not among
    the sources; section 4.3, step 6, says the extension host is started
    only once the reinitialization completes.  The world says whether the
    reinitialization completes, fails before the task, or fails after it. *)
Definition contextService_initialize_call
    (workspace : IWorkspaceIdentifier) (postInitialisationTask : M unit) : M unit :=
  w <- ask ;;
  emit (EvContextInitialize workspace) ;;
  match contextService_initialize w workspace with
  | InitializeDone => postInitialisationTask
  | InitializeFailed r => reject r
  | InitializeFailedAfterTask r => postInitialisationTask ;; reject r
  end.

Definition migrateStorage (toWorkspace : IWorkspaceIdentifier) : M unit :=
  call (EvMigrateStorage toWorkspace) (fun w => storage_migrate w toWorkspace).

Definition doCopyWorkspaceSettings
    (toWorkspace : IWorkspaceIdentifier)
    (filter : option (IConfigurationPropertySchema -> bool)) : M unit :=
  w <- ask ;;
  let configurationProperties := getConfigurationProperties w in
  let targetWorkspaceConfiguration : gmap string JsonValue :=
    foldl (fun target key =>
             match configurationProperties !! key with
             | Some property =>
                 if match filter with Some f => negb (f property) | None => false end
                 then target
                 else <[key := inspect_workspace w key]> target
             | None => target
             end) ∅ (keys_workspace w) in
  call (EvJsonWrite (configPath toWorkspace) "settings" targetWorkspaceConfiguration true)
       (fun w => jsonEditingService_write w (configPath toWorkspace) targetWorkspaceConfiguration).

Definition migrateWorkspaceSettings (toWorkspace : IWorkspaceIdentifier) : M unit :=
  doCopyWorkspaceSettings toWorkspace
    (Some (fun setting => bool_decide (scope setting = Some WINDOW))).

Definition copyWorkspaceSettings (toWorkspace : IWorkspaceIdentifier) : M unit :=
  doCopyWorkspaceSettings toWorkspace None.

Definition migrate (toWorkspace : IWorkspaceIdentifier) : M unit :=
  (* Storage migration *)
  migrateStorage toWorkspace ;;
  w <- ask ;;
  (* Settings migration (only if we come from a folder workspace) *)
  if bool_decide (getWorkbenchState w = FOLDER) then migrateWorkspaceSettings toWorkspace
  else ret tt.

Definition enterWorkspace (path : URI) : M unit :=
  w <- ask ;;
  if toBoolean (extensionTestsLocationURI w)
  then reject (newError "Entering a new workspace is not possible in tests.")
  else
    (* Stop the extension host first to give extensions most time to shutdown *)
    emit EvStopExtensionHost ;;
    set_extensionHostStarted false ;;
    then_
      (result <- call (EvEnterWorkspace path) (fun w => windowService_enterWorkspace w path) ;;
       (* Migrate storage and settings if we are to enter a workspace *)
       match result with
       | Some result =>
           migrate (workspace result) ;;
           (* Reinitialize backup service *)
           when (backupFileService_isNode w) (emit (EvBackupInitialize (backupPath result))) ;;
           (* Reinitialize configuration service *)
           contextService_initialize_call (workspace result) startExtensionHost
       | None => ret tt
       end)
      ret
      (fun error =>
         started <- get_extensionHostStarted ;;
         when (negb started) startExtensionHost ;; (* start the extension host if not started *)
         reject error).

Definition createAndEnterWorkspace
    (folders : list IWorkspaceFolderCreationData) (path : option URI) : M unit :=
  (* [path && !this.isValidTargetWorkspacePath(path)]: the call is not awaited,
     the operand of [!] is the promise *)
  invalid <- match path with
             | Some p =>
                 valid <- unawaited (isValidTargetWorkspacePath p) ;;
                 ret (negb (toBoolean valid))
             | None => ret false
             end ;;
  if (invalid : bool) then reject RejectNull
  else
    w <- ask ;;
    let remoteAuthority := remoteAuthority w in
    untitledWorkspace <- call (EvCreateUntitledWorkspace folders remoteAuthority)
                              (fun w => createUntitledWorkspace w folders remoteAuthority) ;;
    path <- match path with
            | Some p => saveWorkspaceAs untitledWorkspace p ;; ret p
            | None => ret (configPath untitledWorkspace)
            end ;;
    enterWorkspace path.

Definition saveAndEnterWorkspace (path : URI) : M unit :=
  (* [!this.isValidTargetWorkspacePath(path)]: as above *)
  valid <- unawaited (isValidTargetWorkspacePath path) ;;
  if negb (toBoolean valid) then reject RejectNull
  else
    w <- ask ;;
    match getCurrentWorkspaceIdentifier w with
    | None => reject RejectNull
    | Some workspaceIdentifier =>
        saveWorkspaceAs workspaceIdentifier path ;;
        enterWorkspace path
    end.

Definition includesSingleFolderWorkspace (folders : list URI) : M bool :=
  w <- ask ;;
  if bool_decide (getWorkbenchState w = FOLDER) then
    match workspace_folders w !! 0%nat with
    | Some workspaceFolder =>
        ret (existsb (fun folder => isEqual folder (folder_uri workspaceFolder)) folders)
    | None =>
        (* [workspaceFolder.uri] is read once per element of [folders] *)
        match folders with [] => ret false | _ => typeError "uri" end
    end
  else ret false.

Definition removeFolders (foldersToRemove : list URI) (donotNotifyError : option bool) : M unit :=
  let donotNotifyError := default false donotNotifyError in
  (* If we are in single-folder state and the opened folder is to be removed,
     we create an empty workspace and enter it. *)
  single <- includesSingleFolderWorkspace foldersToRemove ;;
  if (single : bool) then createAndEnterWorkspace [] None
  else
    (* Delegate removal of folders to workspace service otherwise *)
    then_ (contextService_call (EditRemoveFolders foldersToRemove))
          ret (onEditRejected donotNotifyError).

Definition doAddFolders
    (foldersToAdd : list IWorkspaceFolderCreationData) (index : option Z)
    (donotNotifyError : option bool) : M unit :=
  let donotNotifyError := default false donotNotifyError in
  w <- ask ;;
  let state := getWorkbenchState w in
  (* If we are in no-workspace or single-folder workspace, adding folders has to
     enter a workspace. *)
  if negb (bool_decide (state = WORKSPACE)) then
    let newWorkspaceFolders :=
      map (fun folder => {| uri := folder_uri folder; name := None |})
          (workspace_folders w) in
    let newWorkspaceFolders :=
      js_splice_insert newWorkspaceFolders
        (match index with Some i => i | None => Z.of_nat (length newWorkspaceFolders) end)
        foldersToAdd in
    let newWorkspaceFolders :=
      distinct newWorkspaceFolders (fun folder => getComparisonKey (uri folder)) in
    if bool_decide (state = EMPTY) && (Z.of_nat (length newWorkspaceFolders) =? 0)
       || bool_decide (state = FOLDER) && (Z.of_nat (length newWorkspaceFolders) =? 1)
    then ret tt (* return if the operation is a no-op for the current state *)
    else createAndEnterWorkspace newWorkspaceFolders None
  else
    (* Delegate addition of folders to workspace service otherwise *)
    then_ (contextService_call (EditAddFolders foldersToAdd index))
          ret (onEditRejected donotNotifyError).

Definition addFolders
    (foldersToAdd : list IWorkspaceFolderCreationData) (donotNotifyError : option bool) : M unit :=
  doAddFolders foldersToAdd None (Some (default false donotNotifyError)).

Definition doUpdateFolders
    (foldersToAdd : list IWorkspaceFolderCreationData) (foldersToDelete : list URI)
    (index : option Z) (donotNotifyError : option bool) : M unit :=
  let donotNotifyError := default false donotNotifyError in
  then_ (contextService_call (EditUpdateFolders foldersToAdd foldersToDelete index))
        ret (onEditRejected donotNotifyError).

Definition updateFolders
    (index : Z) (deleteCount : option Z)
    (foldersToAdd : option (list IWorkspaceFolderCreationData))
    (donotNotifyError : option bool) : M unit :=
  w <- ask ;;
  let folders := workspace_folders w in
  let foldersToDelete :=
    match deleteCount with
    | Some deleteCount => map folder_uri (js_slice folders index (index + deleteCount))
    | None => []
    end in
  let wantsToDelete := 0 <? Z.of_nat (length foldersToDelete) in
  let wantsToAdd :=
    match foldersToAdd with Some l => 0 <? Z.of_nat (length l) | None => false end in
  (* [foldersToAdd!] *)
  let foldersToAdd_ := default [] foldersToAdd in
  if negb wantsToAdd && negb wantsToDelete then
    ret tt (* return early if there is nothing to do *)
  else if wantsToAdd && negb wantsToDelete && bool_decide (is_Some foldersToAdd) then
    (* Add Folders *)
    doAddFolders foldersToAdd_ (Some index) donotNotifyError
  else if wantsToDelete && negb wantsToAdd then
    (* Delete Folders *)
    removeFolders foldersToDelete None
  else
    (* Add & Delete Folders *)
    single <- includesSingleFolderWorkspace foldersToDelete ;;
    if (single : bool) then
      (* if we are in single-folder state and the folder is replaced with
         other folders, we handle this specially and just enter workspace
         mode with the folders that are being added. *)
      createAndEnterWorkspace foldersToAdd_ None
    else if negb (bool_decide (getWorkbenchState w = WORKSPACE)) then
      (* if we are not in workspace-state, we just add the folders *)
      doAddFolders foldersToAdd_ (Some index) donotNotifyError
    else
      (* finally, update folders within the workspace *)
      doUpdateFolders foldersToAdd_ foldersToDelete (Some index) donotNotifyError.

(** The [buttons] array that [saveUntitedBeforeShutdown] builds. *)
Definition confirmButtons (p : Platform) : list Button :=
  let save := {| label := mnemonicButtonLabel "Save"; result := SAVE |} in
  let dontSave := {| label := mnemonicButtonLabel "Don't Save"; result := DONT_SAVE |} in
  let cancel := {| label := "Cancel"; result := CANCEL |} in
  if isWindows p then [save; dontSave; cancel]
  else if isLinux p then [dontSave; cancel; save]
  else [save; cancel; dontSave].

Definition saveUntitedBeforeShutdown (reason : ShutdownReason) (w : World) : option (M bool) :=
  if negb (bool_decide (reason = LOAD)) && negb (bool_decide (reason = CLOSE)) then
    None (* only interested when window is closing or loading *)
  else
    match getCurrentWorkspaceIdentifier w with
    | None => None
    | Some workspaceIdentifier =>
        if negb (isEqualOrParent (configPath workspaceIdentifier) (untitledWorkspacesHome w))
        then None (* only care about untitled workspaces to ask for saving *)
        else Some (
          windowCount <- call EvGetWindowCount (fun w => Resolved (getWindowCount w)) ;;
          if bool_decide (reason = CLOSE) && negb (isMacintosh (platform w)) && (windowCount =? 1)
          then ret false (* Windows/Linux: quits when last window is closed, so do not ask then *)
          else
            let buttons := confirmButtons (platform w) in
            let message := "Do you want to save your workspace configuration as a file?" in
            let detail := "Save your workspace if you plan to open it again." in
            let cancelId := js_indexOf (fun b => bool_decide (result b = CANCEL)) buttons in
            res <- call (EvDialogShow SeverityWarning message (map label buttons) detail cancelId)
                        (fun w => Resolved (dialogService_show w)) ;;
            match js_index buttons res with
            | None => typeError "result"
            | Some button =>
                match result button with
                | CANCEL => ret true (* Cancel: veto unload *)
                | DONT_SAVE =>
                    (* Don't Save: delete workspace *)
                    emit (EvDeleteUntitledWorkspace workspaceIdentifier) ;;
                    ret false
                | SAVE =>
                    (* Save: save workspace, but do not veto unload *)
                    newWorkspacePath <- pickNewWorkspacePath ;;
                    match newWorkspacePath with
                    | Some newWorkspacePath =>
                        then_ (saveWorkspaceAs workspaceIdentifier newWorkspacePath)
                              (fun _ =>
                                 newWorkspaceIdentifier <-
                                   call (EvGetWorkspaceIdentifier newWorkspacePath)
                                        (fun w => Resolved (getWorkspaceIdentifier w newWorkspacePath)) ;;
                                 let label := getWorkspaceLabel w newWorkspaceIdentifier in
                                 emit (EvAddRecentlyOpened label newWorkspaceIdentifier) ;;
                                 emit (EvDeleteUntitledWorkspace workspaceIdentifier) ;;
                                 ret false)
                              (fun _ => ret false)
                    | None => ret true (* keep veto if no target was provided *)
                    end
                end
            end)
    end.

(** The listener the constructor registers with
    [lifecycleService.onBeforeShutdown]: the vetoes it hands to the event. *)
Definition onBeforeShutdown (reason : ShutdownReason) (w : World) : list (M bool) :=
  let saveOperation := saveUntitedBeforeShutdown reason w in
  match saveOperation with
  | Some saveOperation => [saveOperation]
  | None => []
  end.

(** ** Observations on traces *)

Definition is_startExtensionHost (e : Event) : bool :=
  match e with EvStartExtensionHost => true | _ => false end.

(** The data-mutating steps of the migration: storage and settings. *)
Definition is_migration (e : Event) : bool :=
  match e with EvMigrateStorage _ | EvJsonWrite _ _ _ _ => true | _ => false end.

Definition is_folderEdit (e : Event) : bool :=
  match e with EvFolderEdit _ => true | _ => false end.

(** [only_calls P m]: whatever the session so far, [m] keeps the calls made
    and adds calls that all satisfy [P]. *)
Definition only_calls (P : Event -> Prop) {A} (m : M A) : Prop :=
  forall w s, exists calls, trace (m w s).1 = trace s ++ calls /\ Forall P calls.

(** [P] holds of every call that is not a folder edit. *)
Definition allows_other_calls (P : Event -> Prop) : Prop :=
  forall e, is_folderEdit e = false -> P e.

(** A call on the notification service. *)
Definition is_notification (e : Event) : bool :=
  match e with EvNotifyError _ | EvNotifyPrompt _ _ _ => true | _ => false end.

(** The three public folder operations, as calls. *)
Inductive FolderCall :=
| CallAddFolders (foldersToAdd : list IWorkspaceFolderCreationData)
                 (donotNotifyError : option bool)
| CallRemoveFolders (foldersToRemove : list URI) (donotNotifyError : option bool)
| CallUpdateFolders (index : Z) (deleteCount : option Z)
                    (foldersToAdd : option (list IWorkspaceFolderCreationData))
                    (donotNotifyError : option bool).

Definition perform (c : FolderCall) : M unit :=
  match c with
  | CallAddFolders foldersToAdd flag => addFolders foldersToAdd flag
  | CallRemoveFolders foldersToRemove flag => removeFolders foldersToRemove flag
  | CallUpdateFolders index deleteCount foldersToAdd flag =>
      updateFolders index deleteCount foldersToAdd flag
  end.

(** An [updateFolders] call with no folders to add: it can only delete. *)
Definition deletes_only (c : FolderCall) : bool :=
  match c with
  | CallUpdateFolders _ _ (Some (_ :: _)) _ => false
  | CallUpdateFolders _ _ _ _ => true
  | _ => false
  end.

(** The [donotNotifyError] argument of a call; unset counts as [false]. *)
Definition donotNotifyError_of (c : FolderCall) : bool :=
  match c with
  | CallAddFolders _ flag | CallRemoveFolders _ flag | CallUpdateFolders _ _ _ flag =>
      default false flag
  end.

(** The delegation of an edit to the context service, as the three folder
    operations write it:
    [contextService.edit(...).then(() => null, error => donotNotifyError ?
    Promise.reject(error) : this.handleWorkspaceConfigurationEditingError(error))]. *)
Definition delegate (edit : FolderEdit) (donotNotifyError : bool) : M unit :=
  then_ (contextService_call edit) ret (onEditRejected donotNotifyError).

Definition is_stopExtensionHost (e : Event) : bool :=
  match e with EvStopExtensionHost => true | _ => false end.

(** A call on the file service. *)
Definition is_fileCall (e : Event) : bool :=
  match e with EvResolveContent _ | EvCreateFile _ _ _ => true | _ => false end.

(** A call that shows the user something: dialog, picker, message box or
    notification. *)
Definition is_userFacing (e : Event) : bool :=
  match e with
  | EvDialogShow _ _ _ _ _ | EvShowSaveDialog | EvShowMessageBox _ _
  | EvNotifyError _ | EvNotifyPrompt _ _ _ => true
  | _ => false
  end.

(** The calls through which the window takes on another workspace. *)
Definition is_enteringCall (e : Event) : bool :=
  match e with
  | EvStopExtensionHost | EvStartExtensionHost | EvReloadWindow | EvEnterWorkspace _
  | EvMigrateStorage _ | EvJsonWrite _ _ _ _ | EvBackupInitialize _
  | EvContextInitialize _ => true
  | _ => false
  end.

(** The replacement of the single folder as section 8 of the specification
    words it: in a FOLDER state with folder [F], deleting [F] while adding
    [A] and [B] creates a workspace whose folder list is the de-duplication
    of [A; B] and holds no folder equal to [F]. *)
Definition replaces_single_folder_as_specified
    (w : World) (index deleteCount : Z) (A B : IWorkspaceFolderCreationData) : Prop :=
  forall F,
    configuration (getWorkspace w) = None ->
    workspace_folders w = [F] ->
    js_slice [F] index (index + deleteCount) <> [] ->
    exists created,
      (run (updateFolders index (Some deleteCount) (Some [A; B]) None) w).1 !! 0%nat
      = Some (EvCreateUntitledWorkspace created (remoteAuthority w)) /\
      created = distinct [A; B] (fun folder => getComparisonKey (uri folder)) /\
      Forall (fun folder => isEqual (uri folder) (folder_uri F) = false) created.

(** Some live window has a workspace open at [target]'s location. *)
Definition openedInAWindow (w : World) (target : URI) : Prop :=
  exists window workspace,
    window ∈ getWindows w /\
    window_workspace window = Some workspace /\
    getComparisonKey (configPath workspace) = getComparisonKey target.

End Service.

(** The methods unfold only on request. *)
Arguments pickNewWorkspacePath : simpl never.
Arguments saveWorkspaceAs : simpl never.
Arguments isValidTargetWorkspacePath : simpl never.
Arguments handleWorkspaceConfigurationEditingError : simpl never.
Arguments contextService_call : simpl never.
Arguments onEditRejected : simpl never.
Arguments startExtensionHost : simpl never.
Arguments contextService_initialize_call : simpl never.
Arguments migrateStorage : simpl never.
Arguments doCopyWorkspaceSettings : simpl never.
Arguments migrateWorkspaceSettings : simpl never.
Arguments copyWorkspaceSettings : simpl never.
Arguments migrate : simpl never.
Arguments enterWorkspace : simpl never.
Arguments createAndEnterWorkspace : simpl never.
Arguments saveAndEnterWorkspace : simpl never.
Arguments includesSingleFolderWorkspace : simpl never.
Arguments removeFolders : simpl never.
Arguments doAddFolders : simpl never.
Arguments addFolders : simpl never.
Arguments doUpdateFolders : simpl never.
Arguments updateFolders : simpl never.

(** ** A concrete setting

    Locations are path strings whose comparison key is the lower-cased path;
    the worlds below are those the properties are exercised on. *)

Definition lowerAscii (c : Ascii.ascii) : Ascii.ascii :=
  let n := Ascii.nat_of_ascii c in
  if (65 <=? n)%nat && (n <=? 90)%nat then Ascii.ascii_of_nat (n + 32) else c.

Fixpoint lowerCase (s : string) : string :=
  match s with
  | EmptyString => EmptyString
  | String c r => String (lowerAscii c) (lowerCase r)
  end.

#[global] Instance path_strings : Imported string := {|
  getComparisonKey := lowerCase;
  isEqualOrParent resource candidate := String.prefix candidate resource;
  basename path := path;
  rewriteWorkspaceFileForNewLocation raw _ _ := raw;
  mnemonicButtonLabel text := text;
|}.

Definition exampleProperties : gmap string IConfigurationPropertySchema :=
  <["editor.fontSize" := {| scope := Some WINDOW |}]>
    (<["telemetry.machineId" := {| scope := Some MACHINE |}]>
       (<["files.exclude" := {| scope := Some RESOURCE |}]> ∅)).

(** A Linux window; the arguments are what the examples vary. *)
Definition exampleWorld
    (current : Workspace) (windows : list IWindow)
    (choice : Z) (picked : option string)
    (editError : option ErrorObject)
    (entered : string -> Result (option IEnterWorkspaceResult))
    (written : Result unit) : World :=
  {| getWorkspace := current;
     contextService_edit := fun _ => editError;
     contextService_initialize := fun _ => InitializeDone;
     extensionTestsLocationURI := None;
     untitledWorkspacesHome := "/untitled";
     platform := PlatformLinux;
     remoteAuthority := None;
     windowService_enterWorkspace := entered;
     getWindowCount := Z.of_nat (length windows);
     getWindows := windows;
     dialogService_show := choice;
     showSaveDialog := picked;
     createUntitledWorkspace := fun _ _ =>
       Resolved {| id := "untitled-2"; configPath := "/untitled/2/workspace.json" |};
     getWorkspaceIdentifier := fun path => {| id := lowerCase path; configPath := path |};
     getWorkspaceLabel := fun workspace => configPath workspace;
     resolveContent := fun _ => Resolved "{}";
     createFile := fun _ _ => written;
     storage_migrate := fun _ => Resolved tt;
     jsonEditingService_write := fun _ _ => Resolved tt;
     backupFileService_isNode := true;
     getConfigurationProperties := exampleProperties;
     keys_workspace := ["editor.fontSize"; "telemetry.machineId"; "files.exclude"; "my.own"];
     inspect_workspace := fun key => JString key |}.

Definition folderF : WorkspaceFolder := {| folder_uri := "/proj"; folder_name := "proj" |}.
Definition dataA : IWorkspaceFolderCreationData := {| uri := "/a"; name := None |}.
Definition dataA' : IWorkspaceFolderCreationData := {| uri := "/A"; name := None |}.
Definition dataB : IWorkspaceFolderCreationData := {| uri := "/b"; name := None |}.
Definition dataF : IWorkspaceFolderCreationData := {| uri := "/proj"; name := None |}.

Definition untitled1 : IWorkspaceIdentifier :=
  {| id := "untitled-1"; configPath := "/untitled/1/workspace.json" |}.
Definition teamWorkspace : IWorkspaceIdentifier :=
  {| id := "team"; configPath := "/ws/team.code-workspace" |}.

Definition noFolders : @Workspace string :=
  {| workspace_id := "empty"; folders := []; configuration := None |}.
Definition singleFolder : Workspace :=
  {| workspace_id := "proj"; folders := [folderF]; configuration := None |}.
Definition untitledWorkspace1 : Workspace :=
  {| workspace_id := "untitled-1"; folders := [folderF];
     configuration := Some "/untitled/1/workspace.json" |}.

(** The window of the service itself, as the windows list shows it. *)
Definition windowOf (current : @Workspace string) : @IWindow string :=
  {| window_id := 1;
     window_workspace :=
       match configuration current with
       | Some location => Some {| id := workspace_id current; configPath := location |}
       | None => None
       end |}.

Definition thisWindow : IWindow := windowOf untitledWorkspace1.
Definition otherWindow : IWindow := {| window_id := 2; window_workspace := Some teamWorkspace |}.

(** A host that enters whatever it is asked to. *)
Definition hostEnters (path : string) : Result (option IEnterWorkspaceResult) :=
  Resolved (Some {| workspace := {| id := lowerCase path; configPath := path |};
                    backupPath := Some ("/backups" +:+ path) |}).

(** One window, no failing collaborator. *)
Definition quietWorld (current : Workspace) : World :=
  exampleWorld current [windowOf current] 1 None None hostEnters (Resolved tt).

(** Two windows; the other one has the team workspace open. *)
Definition promptWorld (choice : Z) (picked : option string) (written : Result unit) : World :=
  exampleWorld untitledWorkspace1 [thisWindow; otherWindow] choice picked None hostEnters written.

Definition dirtyFile : ErrorObject :=
  {| code := Some ERROR_FILE_DIRTY; message := "file is dirty" |}.

(** A workspace window whose every folder edit fails on a dirty file. *)
Definition failingEdit : World :=
  exampleWorld untitledWorkspace1 [thisWindow] 1 None (Some dirtyFile) hostEnters (Resolved tt).

(** A single-folder window whose host refuses to enter any workspace. *)
Definition rejectingHost : World :=
  exampleWorld singleFolder [windowOf singleFolder] 1 None None
    (fun _ => Rejected (newError "refused")) (Resolved tt).

(** [base] with other answers from the environment, the storage, the JSON
    editing, the context service's reinitialization and the file reads. *)
Definition exampleWorldWith
    (base : @World string)
    (tests : option string) (os : Platform) (remote : option string)
    (migrated written : Result unit) (initialized : InitializeOutcome)
    (read : Result string) : World :=
  {| getWorkspace := getWorkspace base;
     contextService_edit := contextService_edit base;
     contextService_initialize := fun _ => initialized;
     extensionTestsLocationURI := tests;
     untitledWorkspacesHome := untitledWorkspacesHome base;
     platform := os;
     remoteAuthority := remote;
     windowService_enterWorkspace := windowService_enterWorkspace base;
     getWindowCount := getWindowCount base;
     getWindows := getWindows base;
     dialogService_show := dialogService_show base;
     showSaveDialog := showSaveDialog base;
     createUntitledWorkspace := createUntitledWorkspace base;
     getWorkspaceIdentifier := getWorkspaceIdentifier base;
     getWorkspaceLabel := getWorkspaceLabel base;
     resolveContent := fun _ => read;
     createFile := createFile base;
     storage_migrate := fun _ => migrated;
     jsonEditingService_write := fun _ _ => written;
     backupFileService_isNode := backupFileService_isNode base;
     getConfigurationProperties := getConfigurationProperties base;
     keys_workspace := keys_workspace base;
     inspect_workspace := inspect_workspace base |}.

(** A single-folder window whose host declines to enter. *)
Definition decliningHost : World :=
  exampleWorld singleFolder [windowOf singleFolder] 1 None None
    (fun _ => Resolved None) (Resolved tt).

(** The single-folder window under the extension tests. *)
Definition underTests : World :=
  exampleWorldWith (quietWorld singleFolder) (Some "/tests") PlatformLinux None
    (Resolved tt) (Resolved tt) InitializeDone (Resolved "{}").

(** The single-folder window with a storage that cannot be migrated. *)
Definition storageFails : World :=
  exampleWorldWith (quietWorld singleFolder) None PlatformLinux None
    (Rejected (newError "storage")) (Resolved tt) InitializeDone (Resolved "{}").

(** The single-folder window, remote, whose context service fails after it
    has started the extension host. *)
Definition lateFailure : World :=
  exampleWorldWith (quietWorld singleFolder) None PlatformLinux (Some "ssh-remote")
    (Resolved tt) (Resolved tt) (InitializeFailedAfterTask (newError "late")) (Resolved "{}").

(** The untitled workspace window with a workspace file that cannot be read. *)
Definition unreadable : World :=
  exampleWorldWith (quietWorld untitledWorkspace1) None PlatformLinux None
    (Resolved tt) (Resolved tt) InitializeDone (Rejected (newError "ENOENT")).

Definition folderA : WorkspaceFolder := {| folder_uri := "/a"; folder_name := "a" |}.
Definition folderB : WorkspaceFolder := {| folder_uri := "/b"; folder_name := "b" |}.
Definition folderC : WorkspaceFolder := {| folder_uri := "/c"; folder_name := "c" |}.

(** The team workspace with three folders. *)
Definition threeFolders : Workspace :=
  {| workspace_id := "team"; folders := [folderA; folderB; folderC];
     configuration := Some "/ws/team.code-workspace" |}.

(** ** Properties *)

Section Properties.

Context {URI : Type} `{!Imported URI}.

Implicit Types (w : @World URI) (s : @Session URI) (P : @Event URI -> Prop).

(** Unfolds the monad's operations so that a computation started with [run]
    evaluates. *)
Ltac promise_unfold :=
  unfold run, bind, then_, unawaited, call, emit, ask, when, ret, reject,
    typeError, get_extensionHostStarted, set_extensionHostStarted in *.

Ltac promise_eval := promise_unfold; cbn.

Lemma existsb_opened (windows : list IWindow) (target : URI) :
  existsb (fun window =>
             match window_workspace window with
             | Some workspace => isEqual (configPath workspace) target
             | None => false
             end) windows = true
  <-> exists window workspace,
        window ∈ windows /\ window_workspace window = Some workspace /\
        getComparisonKey (configPath workspace) = getComparisonKey target.
Proof.
  rewrite existsb_exists. split.
  - intros (window & Hin & Hw). destruct (window_workspace window) as [ws|] eqn:E; [|done].
    exists window, ws. apply bool_decide_eq_true in Hw.
    split; [by apply list_elem_of_In|done].
  - intros (window & ws & Hin & E & Hk). exists window.
    split; [by apply list_elem_of_In|]. rewrite E. by apply bool_decide_eq_true.
Qed.

(** C9: [saveWorkspaceAs] with a target equal to the workspace's current
    configuration location (the same location, or one that [isEqual] equates
    with it) resolves without any call on a collaborator: nothing is read
    and nothing is written. *)
Theorem saveWorkspaceAs_same_target_no_io w workspace target :
  target = configPath workspace \/ isEqual (configPath workspace) target = true ->
  run (saveWorkspaceAs workspace target) w = ([], Resolved tt).
Proof.
  intros H.
  assert (isEqual (configPath workspace) target = true) as Heq.
  { destruct H as [->|H]; [|done]. by apply bool_decide_eq_true. }
  unfold run, saveWorkspaceAs. by rewrite Heq.
Qed.

(** C8: when the deletion range computed from [index] and [deleteCount] is
    empty and [foldersToAdd] is absent or empty, [updateFolders] resolves
    and makes no call on any collaborator, in every workbench state. *)
Theorem updateFolders_nothing_to_do w index deleteCount foldersToAdd donotNotifyError :
  match deleteCount with
  | Some n => js_slice (workspace_folders w) index (index + n) = []
  | None => True
  end ->
  foldersToAdd = None \/ foldersToAdd = Some [] ->
  run (updateFolders index deleteCount foldersToAdd donotNotifyError) w = ([], Resolved tt).
Proof.
  intros Hdel Hadd. unfold run, updateFolders, bind, ask.
  assert (match deleteCount with
          | Some n => map folder_uri (js_slice (workspace_folders w) index (index + n))
          | None => []
          end = []) as ->.
  { destruct deleteCount; [by rewrite Hdel|done]. }
  by destruct Hadd as [-> | ->].
Qed.

(** C6: [isValidTargetWorkspacePath] resolves to [false] exactly when some
    entry of the windows list has a workspace whose configuration location
    has the comparison key of the target, and to [true] otherwise. *)
Theorem isValidTargetWorkspacePath_iff_not_opened w target :
  (openedInAWindow w target ->
   (run (isValidTargetWorkspacePath target) w).2 = Resolved false) /\
  (~ openedInAWindow w target ->
   (run (isValidTargetWorkspacePath target) w).2 = Resolved true).
Proof.
  unfold openedInAWindow. rewrite <- existsb_opened.
  unfold isValidTargetWorkspacePath. promise_eval.
  destruct (existsb _ (getWindows w)); cbn; split; intros; done.
Qed.

(** C3: when the host's enter-workspace call rejects, [enterWorkspace]
    rejects with that same rejection, has started the extension host exactly
    once, and has run neither storage nor settings migration. *)
Theorem enterWorkspace_host_rejects w path r :
  extensionTestsLocationURI w = None ->
  windowService_enterWorkspace w path = Rejected r ->
  (run (enterWorkspace path) w).2 = Rejected r /\
  length (List.filter is_startExtensionHost ((run (enterWorkspace path) w).1)) = 1%nat /\
  List.filter is_migration ((run (enterWorkspace path) w).1) = [].
Proof.
  intros Htests Henter. unfold enterWorkspace, startExtensionHost. promise_eval.
  rewrite Htests. cbn. rewrite Henter. cbn.
  destruct (toBoolean (remoteAuthority w)); cbn; done.
Qed.

(** *** Which calls a computation adds *)

Section OnlyCalls.

Variable P : Event (URI:=URI) -> Prop.

Lemma only_calls_ret {A} (a : A) : only_calls P (ret a).
Proof. intros w s. exists []. by rewrite app_nil_r. Qed.

Lemma only_calls_reject {A} r : only_calls P (reject (A:=A) r).
Proof. intros w s. exists []. by rewrite app_nil_r. Qed.

Lemma only_calls_ask : only_calls P ask.
Proof. intros w s. exists []. by rewrite app_nil_r. Qed.

Lemma only_calls_get : only_calls P get_extensionHostStarted.
Proof. intros w s. exists []. by rewrite app_nil_r. Qed.

Lemma only_calls_set b : only_calls P (set_extensionHostStarted b).
Proof. intros w s. exists []. by rewrite app_nil_r. Qed.

Lemma only_calls_emit e : P e -> only_calls P (emit e).
Proof. intros He w s. exists [e]. split; [done|]. by constructor. Qed.

Lemma only_calls_call {A} e (answer : World -> Result A) : P e -> only_calls P (call e answer).
Proof. intros He w s. exists [e]. split; [done|]. by constructor. Qed.

Lemma only_calls_bind {A B} (m : M A) (k : A -> M B) :
  only_calls P m -> (forall a, only_calls P (k a)) -> only_calls P (bind m k).
Proof.
  intros Hm Hk w s. unfold bind. destruct (Hm w s) as (c1 & E1 & F1).
  destruct (m w s) as [s1 [a|r]]; cbn in E1.
  - destruct (Hk a w s1) as (c2 & E2 & F2). exists (c1 ++ c2).
    rewrite E2, E1, app_assoc. split; [done|]. by apply Forall_app.
  - by exists c1.
Qed.

Lemma only_calls_then {A B} (m : M A) (f : A -> M B) (g : Rejection -> M B) :
  only_calls P m -> (forall a, only_calls P (f a)) -> (forall r, only_calls P (g r)) ->
  only_calls P (then_ m f g).
Proof.
  intros Hm Hf Hg w s. unfold then_. destruct (Hm w s) as (c1 & E1 & F1).
  destruct (m w s) as [s1 [a|r]]; cbn in E1.
  - destruct (Hf a w s1) as (c2 & E2 & F2). exists (c1 ++ c2).
    rewrite E2, E1, app_assoc. split; [done|]. by apply Forall_app.
  - destruct (Hg r w s1) as (c2 & E2 & F2). exists (c1 ++ c2).
    rewrite E2, E1, app_assoc. split; [done|]. by apply Forall_app.
Qed.

Lemma only_calls_unawaited {A} (m : M A) : only_calls P m -> only_calls P (unawaited m).
Proof.
  intros Hm w s. unfold unawaited. destruct (Hm w s) as (c1 & E1 & F1).
  destruct (m w s) as [s1 r]. by exists c1.
Qed.

Lemma only_calls_when b m : only_calls P m -> only_calls P (when b m).
Proof. intros Hm. destruct b; [done|apply only_calls_ret]. Qed.

End OnlyCalls.

Ltac only_calls_step :=
  lazymatch goal with
  | |- only_calls _ (bind _ _) => apply only_calls_bind; [|intros ?]
  | |- only_calls _ (then_ _ _ _) => apply only_calls_then; [|intros ?|intros ?]
  | |- only_calls _ (unawaited _) => apply only_calls_unawaited
  | |- only_calls _ (when _ _) => apply only_calls_when
  | |- only_calls _ (emit _) => apply only_calls_emit; auto
  | |- only_calls _ (call _ _) => apply only_calls_call; auto
  | |- only_calls _ (ret _) => apply only_calls_ret
  | |- only_calls _ (reject _) => apply only_calls_reject
  | |- only_calls _ ask => apply only_calls_ask
  | |- only_calls _ get_extensionHostStarted => apply only_calls_get
  | |- only_calls _ (set_extensionHostStarted _) => apply only_calls_set
  | |- only_calls _ (match ?x with _ => _ end) => destruct x
  | |- only_calls _ _ => assumption
  end.

Ltac only_calls_auto := cbv zeta; repeat only_calls_step.

Lemma saveWorkspaceAs_only_calls P workspace target :
  allows_other_calls P -> only_calls P (saveWorkspaceAs workspace target).
Proof. intros HP. unfold saveWorkspaceAs. only_calls_auto. Qed.

Lemma isValidTargetWorkspacePath_only_calls P path :
  allows_other_calls P -> only_calls P (isValidTargetWorkspacePath path).
Proof. intros HP. unfold isValidTargetWorkspacePath. only_calls_auto. Qed.

Lemma startExtensionHost_only_calls P :
  allows_other_calls P -> only_calls P startExtensionHost.
Proof. intros HP. unfold startExtensionHost. only_calls_auto. Qed.

Lemma migrate_only_calls P toWorkspace :
  allows_other_calls P -> only_calls P (migrate toWorkspace).
Proof.
  intros HP.
  unfold migrate, migrateStorage, migrateWorkspaceSettings, doCopyWorkspaceSettings.
  only_calls_auto.
Qed.

Lemma contextService_initialize_only_calls P workspace task :
  allows_other_calls P -> only_calls P task ->
  only_calls P (contextService_initialize_call workspace task).
Proof. intros HP Htask. unfold contextService_initialize_call. only_calls_auto. Qed.

Lemma enterWorkspace_only_calls P path :
  allows_other_calls P -> only_calls P (enterWorkspace path).
Proof.
  intros HP. unfold enterWorkspace.
  only_calls_auto;
    first [by apply migrate_only_calls
          | by apply contextService_initialize_only_calls, startExtensionHost_only_calls
          | by apply startExtensionHost_only_calls].
Qed.

Lemma createAndEnterWorkspace_only_calls P fs path :
  allows_other_calls P -> only_calls P (createAndEnterWorkspace fs path).
Proof.
  intros HP. unfold createAndEnterWorkspace.
  only_calls_auto;
    first [by apply enterWorkspace_only_calls | by apply saveWorkspaceAs_only_calls
          | by apply isValidTargetWorkspacePath_only_calls].
Qed.

Lemma allows_all : allows_other_calls (fun _ : @Event URI => True).
Proof. intros e _. exact I. Qed.

Lemma allows_not_edit : allows_other_calls (fun e : @Event URI => is_folderEdit e = false).
Proof. intros e He. exact He. Qed.

(** *** Settings migration *)

Lemma copied_settings_lookup
    (properties : gmap string IConfigurationPropertySchema)
    (filter : option (IConfigurationPropertySchema -> bool))
    (inspect : string -> JsonValue) (keys : list string)
    (target : gmap string JsonValue) (key : string) :
  let copied :=
    key ∈ keys /\
    exists property, properties !! key = Some property /\
      match filter with Some f => f property = true | None => True end in
  let result :=
    foldl (fun target key =>
             match properties !! key with
             | Some property =>
                 if match filter with Some f => negb (f property) | None => false end
                 then target
                 else <[key := inspect key]> target
             | None => target
             end) target keys in
  (copied -> result !! key = Some (inspect key)) /\
  (~ copied -> result !! key = target !! key).
Proof.
  revert target. induction keys as [|k keys IH]; intros target; cbn.
  - split; [intros [Hin _]; by apply elem_of_nil in Hin | done].
  - set (target' := match properties !! k with Some _ => _ | None => _ end).
    destruct (IH target') as [IHyes IHno]. clear IH.
    set (later := key ∈ keys /\ exists property, properties !! key = Some property /\
                    match filter with Some f => f property = true | None => True end) in *.
    assert (key = k -> (exists property, properties !! key = Some property /\
                    match filter with Some f => f property = true | None => True end) ->
            target' !! key = Some (inspect key)) as Hhere.
    { intros -> (property & Hp & Hf). subst target'. rewrite Hp.
      destruct filter as [f|]; [rewrite Hf|]; cbn; by rewrite lookup_insert_eq. }
    assert ((key = k -> ~ exists property, properties !! key = Some property /\
                    match filter with Some f => f property = true | None => True end) ->
            target' !! key = target !! key) as Hnot.
    { intros Hno. subst target'. destruct (properties !! k) as [property|] eqn:Hp; [|done].
      destruct (match filter with Some f => negb (f property) | None => false end) eqn:Hf; [done|].
      destruct (decide (key = k)) as [->|Hne]; [|by rewrite lookup_insert_ne].
      exfalso. apply Hno; [done|]. exists property. split; [done|].
      destruct filter as [f|]; [|done]. by apply negb_false_iff in Hf. }
    split.
    + intros [Hin Hprop]. destruct (decide (key ∈ keys)) as [Hl|Hl].
      * by apply IHyes.
      * apply elem_of_cons in Hin as [->|Hin]; [|done].
        rewrite IHno; [by apply Hhere | by intros [? _]].
    + intros Hno. rewrite IHno.
      * apply Hnot. intros -> Hp. apply Hno. split; [apply elem_of_cons; by left | done].
      * intros [Hin Hp]. apply Hno. split; [apply elem_of_cons; by right | done].
Qed.

(** C5: migration from a FOLDER state writes, after the storage migration,
    one settings block into the new workspace's configuration file; a key is
    in the block exactly when it is among the workspace-effective keys and
    its declared property has scope window, and it carries the workspace
    value.  Keys of another scope, of no scope, or with no declared property
    are not in the block. *)
Theorem migrate_from_folder_copies_window_settings w toWorkspace :
  getWorkbenchState w = FOLDER ->
  storage_migrate w toWorkspace = Resolved tt ->
  exists settings : gmap string JsonValue,
    (run (migrate toWorkspace) w).1 =
      [EvMigrateStorage toWorkspace;
       EvJsonWrite (configPath toWorkspace) "settings" settings true] /\
    (forall key value,
        settings !! key = Some value <->
        key ∈ keys_workspace w /\
        (exists property, getConfigurationProperties w !! key = Some property /\
                          scope property = Some WINDOW) /\
        value = inspect_workspace w key) /\
    (forall key,
        match getConfigurationProperties w !! key with
        | Some property => scope property <> Some WINDOW
        | None => True
        end -> settings !! key = None).
Proof.
  intros Hstate Hstorage.
  unfold migrate, migrateStorage, migrateWorkspaceSettings, doCopyWorkspaceSettings.
  promise_eval. rewrite Hstorage. cbn. rewrite Hstate. cbn.
  eexists. split; [reflexivity|].
  set (filter := Some (fun setting : IConfigurationPropertySchema =>
                         bool_decide (scope setting = Some WINDOW))).
  split.
  - intros key value.
    destruct (copied_settings_lookup (getConfigurationProperties w) filter
                (inspect_workspace w) (keys_workspace w) ∅ key) as [Hyes Hno].
    cbn in Hyes, Hno. split.
    + intros Hlook.
      destruct (decide (key ∈ keys_workspace w)) as [Hin|Hin].
      * destruct (getConfigurationProperties w !! key) as [property|] eqn:Hp.
        -- destruct (decide (scope property = Some WINDOW)) as [Hs|Hs].
           ++ rewrite Hyes in Hlook.
              ** injection Hlook as <-. split; [done|]. split; [by exists property|done].
              ** split; [done|]. exists property. split; [done|]. by apply bool_decide_eq_true.
           ++ rewrite Hno in Hlook; [by rewrite lookup_empty in Hlook|].
              intros [_ (p & Hp' & Hf)]. apply bool_decide_eq_true in Hf. congruence.
        -- rewrite Hno in Hlook; [by rewrite lookup_empty in Hlook|].
           intros [_ (p & Hp' & _)]. congruence.
      * rewrite Hno in Hlook; [by rewrite lookup_empty in Hlook|]. by intros [? _].
    + intros (Hin & (property & Hp & Hs) & ->). apply Hyes.
      split; [done|]. exists property. split; [done|]. by apply bool_decide_eq_true.
  - intros key Hnone.
    destruct (copied_settings_lookup (getConfigurationProperties w) filter
                (inspect_workspace w) (keys_workspace w) ∅ key) as [_ Hno].
    cbn in Hno. rewrite Hno; [apply lookup_empty|].
    intros [_ (p & Hp & Hf)]. rewrite Hp in Hnone. by apply bool_decide_eq_true in Hf.
Qed.

(** *** De-duplication *)

Lemma distinct_from_sublist {A} (keyFn : A -> string) seen (l : list A) :
  sublist (distinct_from keyFn seen l) l.
Proof.
  revert seen. induction l as [|x l IH]; intros seen; cbn; [constructor|].
  case_bool_decide; [apply sublist_cons | apply sublist_skip]; apply IH.
Qed.

Lemma distinct_from_keys_fresh {A} (keyFn : A -> string) seen (l : list A) x :
  x ∈ distinct_from keyFn seen l -> keyFn x ∉ seen.
Proof.
  revert seen. induction l as [|y l IH]; intros seen; cbn; [by intros ?%elem_of_nil|].
  case_bool_decide as Hy.
  - apply IH.
  - intros [->|Hin]%elem_of_cons; [done|].
    apply IH in Hin. intros Hseen. apply Hin. by apply elem_of_cons; right.
Qed.

Lemma distinct_from_NoDup {A} (keyFn : A -> string) seen (l : list A) :
  NoDup (map keyFn (distinct_from keyFn seen l)).
Proof.
  revert seen. induction l as [|x l IH]; intros seen; cbn; [constructor|].
  case_bool_decide as Hx; [apply IH|].
  cbn. constructor; [|apply IH].
  intros (y & Hk & Hy)%list_elem_of_fmap.
  apply distinct_from_keys_fresh in Hy. apply Hy. rewrite <- Hk. apply elem_of_cons; by left.
Qed.

(** The first element carrying a key is kept. *)
Lemma distinct_from_first {A} (keyFn : A -> string) seen (l : list A) i x :
  l !! i = Some x ->
  keyFn x ∉ seen ->
  (forall j y, (j < i)%nat -> l !! j = Some y -> keyFn y <> keyFn x) ->
  x ∈ distinct_from keyFn seen l.
Proof.
  revert seen i. induction l as [|z l IH]; intros seen i Hi Hseen Hfirst; [done|].
  cbn. destruct i as [|i]; cbn in Hi.
  - injection Hi as ->. rewrite bool_decide_eq_false_2; [|done]. apply elem_of_cons; by left.
  - assert (keyFn z <> keyFn x) as Hz by (apply (Hfirst 0%nat); [lia|done]).
    assert (x ∈ distinct_from keyFn seen l /\ x ∈ distinct_from keyFn (keyFn z :: seen) l)
      as [H1 H2].
    { split; apply (IH _ i); try done.
      - intros j y Hj. apply (Hfirst (S j)). lia.
      - intros [?|?]%elem_of_cons; congruence.
      - intros j y Hj. apply (Hfirst (S j)). lia. }
    case_bool_decide; [done|]. apply elem_of_cons; by right.
Qed.

Lemma relativeIndex_empty i : relativeIndex 0 i = 0.
Proof. unfold relativeIndex. destruct (i <? 0) eqn:E; lia. Qed.

Lemma js_splice_insert_empty {A} i (items : list A) : js_splice_insert [] i items = items.
Proof.
  unfold js_splice_insert. cbn [length]. change (Z.of_nat 0) with 0.
  rewrite relativeIndex_empty. cbn. by rewrite app_nil_r.
Qed.

Lemma distinct_cons {A} (keyFn : A -> string) x (l : list A) :
  distinct (x :: l) keyFn = x :: distinct_from keyFn [keyFn x] l.
Proof. unfold distinct. cbn. by rewrite bool_decide_eq_false_2 by apply not_elem_of_nil. Qed.

Lemma createAndEnterWorkspace_first_call w fs :
  (run (createAndEnterWorkspace fs None) w).1 !! 0%nat
  = Some (EvCreateUntitledWorkspace fs (remoteAuthority w)).
Proof.
  unfold createAndEnterWorkspace. promise_eval.
  destruct (createUntitledWorkspace w fs (remoteAuthority w)) as [u|r]; cbn; [|done].
  destruct (enterWorkspace_only_calls _ (configPath u) allows_all w
              {| trace := [EvCreateUntitledWorkspace fs (remoteAuthority w)];
                 extensionHostStarted := false |}) as (calls & E & _).
  destruct (enterWorkspace _ w _) as [s' r']. cbn in *. by rewrite E.
Qed.

(** In a state without folders, adding folders enters a new workspace made
    of the de-duplicated folders to add. *)
Lemma doAddFolders_no_folders w foldersToAdd index donotNotifyError :
  workspace_folders w = [] ->
  configuration (getWorkspace w) = None ->
  foldersToAdd <> [] ->
  run (doAddFolders foldersToAdd index donotNotifyError) w
  = run (createAndEnterWorkspace
           (distinct foldersToAdd (fun folder => getComparisonKey (uri folder))) None) w.
Proof.
  intros Hfolders Hconf Hne.
  assert (getWorkbenchState w = EMPTY) as Hstate.
  { unfold getWorkbenchState. unfold workspace_folders in Hfolders. by rewrite Hconf, Hfolders. }
  unfold run, doAddFolders, bind, ask. rewrite Hstate, Hfolders.
  cbn [map]. rewrite js_splice_insert_empty.
  destruct foldersToAdd as [|x l]; [done|]. rewrite distinct_cons. reflexivity.
Qed.

(** C7: with an empty current folder list, [doAddFolders] de-duplicates the
    folders to add by comparison key and keeps first occurrences in order:
    [A; B; A] gives the candidate list [A; B], handed to
    [createUntitledWorkspace]; for every non-empty list, the candidate list
    is a sublist of the folders to add, has no two entries with one key, and
    holds every entry that is the first with its key. *)
Theorem doAddFolders_dedups_by_first_occurrence w index donotNotifyError :
  workspace_folders w = [] ->
  configuration (getWorkspace w) = None ->
  (forall A B,
      getComparisonKey (uri A) <> getComparisonKey (uri B) ->
      (run (doAddFolders [A; B; A] index donotNotifyError) w).1 !! 0%nat
      = Some (EvCreateUntitledWorkspace [A; B] (remoteAuthority w))) /\
  (forall foldersToAdd,
      foldersToAdd <> [] ->
      exists candidates,
        (run (doAddFolders foldersToAdd index donotNotifyError) w).1 !! 0%nat
        = Some (EvCreateUntitledWorkspace candidates (remoteAuthority w)) /\
        sublist candidates foldersToAdd /\
        NoDup (map (fun folder => getComparisonKey (uri folder)) candidates) /\
        (forall i x,
            foldersToAdd !! i = Some x ->
            (forall j y, (j < i)%nat -> foldersToAdd !! j = Some y ->
                         getComparisonKey (uri y) <> getComparisonKey (uri x)) ->
            x ∈ candidates)).
Proof.
  intros Hfolders Hconf. split.
  - intros A B Hkeys.
    rewrite doAddFolders_no_folders by done. rewrite createAndEnterWorkspace_first_call.
    do 2 f_equal. rewrite distinct_cons. cbn.
    rewrite bool_decide_eq_false_2.
    + rewrite bool_decide_eq_true_2; [done|]. apply elem_of_cons; right. apply elem_of_cons; by left.
    + intros [?|?%elem_of_nil]%elem_of_cons; [congruence|done].
  - intros foldersToAdd Hne.
    exists (distinct foldersToAdd (fun folder => getComparisonKey (uri folder))).
    rewrite doAddFolders_no_folders by done. rewrite createAndEnterWorkspace_first_call.
    split; [done|]. split; [apply distinct_from_sublist|].
    split; [apply distinct_from_NoDup|].
    intros i x Hi Hfirst. apply (distinct_from_first _ _ _ i); [done|apply not_elem_of_nil|done].
Qed.

(** *** Delegated folder edits *)

(** The delegation [contextService.edit(...).then(() => null, error => ...)]
    that the three folder operations share. *)
Lemma delegated_edit_run w edit donotNotifyError :
  run (then_ (contextService_call edit) ret (onEditRejected donotNotifyError)) w
  = match contextService_edit w edit with
    | None => ([EvFolderEdit edit], Resolved tt)
    | Some e =>
        if donotNotifyError then ([EvFolderEdit edit], Rejected (RejectError e))
        else (EvFolderEdit edit :: (run (handleWorkspaceConfigurationEditingError e) w).1,
              Resolved tt)
    end.
Proof.
  unfold contextService_call, onEditRejected. promise_eval.
  destruct (contextService_edit w edit) as [e|]; cbn; [|done].
  destruct donotNotifyError; [done|].
  unfold handleWorkspaceConfigurationEditingError,
    onInvalidWorkspaceConfigurationFileError, onWorkspaceConfigurationFileDirtyError,
    askToOpenWorkspaceConfigurationFile, emit.
  by destruct (code e) as [[]|].
Qed.

Lemma handleWorkspaceConfigurationEditingError_notifies w e :
  exists notification,
    (run (handleWorkspaceConfigurationEditingError e) w).1 = [notification] /\
    is_notification notification = true.
Proof.
  unfold run, handleWorkspaceConfigurationEditingError,
    onInvalidWorkspaceConfigurationFileError, onWorkspaceConfigurationFileDirtyError,
    askToOpenWorkspaceConfigurationFile, emit.
  destruct (code e) as [[]|]; cbn; eexists; split; reflexivity.
Qed.

Lemma includesSingleFolderWorkspace_pure w s uris :
  exists settled, includesSingleFolderWorkspace uris w s = (s, settled).
Proof.
  unfold includesSingleFolderWorkspace. promise_eval.
  case_bool_decide; [|by eexists].
  destruct (workspace_folders w !! 0%nat); [by eexists|].
  destruct uris; by eexists.
Qed.

(** How a folder operation goes: it makes no call at all, or it enters a
    new workspace, or it delegates one edit to the context service, with
    its [donotNotifyError] or, when it only deletes through [updateFolders],
    with none. *)
Inductive FolderCallPath w (c : FolderCall) : Prop :=
| PathNoCall : (run (perform c) w).1 = [] -> FolderCallPath w c
| PathEnter fs :
    run (perform c) w = run (createAndEnterWorkspace fs None) w -> FolderCallPath w c
| PathDelegate edit (flag : bool) :
    run (perform c) w
    = run (then_ (contextService_call edit) ret (onEditRejected flag)) w ->
    flag = donotNotifyError_of c \/ flag = false /\ deletes_only c = true ->
    FolderCallPath w c.

Lemma removeFolders_path w uris flag c :
  run (perform c) w = run (removeFolders uris flag) w ->
  default false flag = donotNotifyError_of c
  \/ default false flag = false /\ deletes_only c = true ->
  FolderCallPath w c.
Proof.
  intros Hc Hflag.
  destruct (includesSingleFolderWorkspace_pure w
              {| trace := []; extensionHostStarted := false |} uris) as (settled & E).
  unfold removeFolders in Hc. unfold run at 2, bind in Hc. rewrite E in Hc.
  destruct settled as [[]|r].
  - by eapply PathEnter.
  - by eapply PathDelegate.
  - apply PathNoCall. by rewrite Hc.
Qed.

Lemma doAddFolders_path w fs index flag c :
  run (perform c) w = run (doAddFolders fs index flag) w ->
  default false flag = donotNotifyError_of c ->
  FolderCallPath w c.
Proof.
  intros Hc Hflag. unfold doAddFolders in Hc. unfold run at 2, bind, ask in Hc.
  destruct (negb (bool_decide (getWorkbenchState w = WORKSPACE))).
  - cbv zeta in Hc.
    match type of Hc with context [if ?b then ret tt else _] => destruct b end.
    + apply PathNoCall. by rewrite Hc.
    + by eapply PathEnter.
  - eapply PathDelegate; [exact Hc|by left].
Qed.

Ltac split_on_condition H :=
  match type of H with
  | _ = (let '(_, _) := (if ?b then _ else _) _ _ in _) => destruct b
  end.

Lemma updateFolders_path w index deleteCount fs flag c :
  run (perform c) w = run (updateFolders index deleteCount fs flag) w ->
  donotNotifyError_of c = default false flag ->
  deletes_only c = match fs with Some (_ :: _) => false | _ => true end ->
  FolderCallPath w c.
Proof.
  intros Hc Hflag Hdeletes.
  unfold updateFolders in Hc. unfold run at 2, bind at 1, ask in Hc. cbv zeta in Hc.
  assert (forall uris fs',
             run (perform c) w
             = (let '(s, r) :=
                  bind (includesSingleFolderWorkspace uris)
                    (fun single : bool =>
                       if single then createAndEnterWorkspace fs' None
                       else if negb (bool_decide (getWorkbenchState w = WORKSPACE))
                            then doAddFolders fs' (Some index) flag
                            else doUpdateFolders fs' uris (Some index) flag)
                    w {| trace := []; extensionHostStarted := false |} in (trace s, r)) ->
             FolderCallPath w c) as Hboth.
  { intros uris fs' Hc'.
    destruct (includesSingleFolderWorkspace_pure w
                {| trace := []; extensionHostStarted := false |} uris) as (settled & E).
    unfold bind in Hc'. rewrite E in Hc'. destruct settled as [[]|r].
    - by eapply PathEnter.
    - split_on_condition Hc'; [eapply doAddFolders_path; [exact Hc'|by rewrite Hflag]|].
      unfold doUpdateFolders in Hc'. eapply PathDelegate; [exact Hc'|left; by rewrite Hflag].
    - apply PathNoCall. by rewrite Hc'. }
  assert ((match fs with Some l => 0 <? Z.of_nat (length l) | None => false end)
          = negb (deletes_only c)) as Hadd.
  { rewrite Hdeletes. destruct fs as [[|x l]|]; [done| |done].
    apply Z.ltb_lt. cbn [length]. lia. }
  rewrite Hadd in Hc.
  destruct (deletes_only c) eqn:Hd; cbn [negb andb] in Hc; rewrite ?andb_false_r in Hc.
  - split_on_condition Hc; [apply PathNoCall; by rewrite Hc|].
    split_on_condition Hc; [eapply removeFolders_path; [exact Hc|by right]|].
    by eapply Hboth.
  - split_on_condition Hc; [eapply doAddFolders_path; [exact Hc|by rewrite Hflag]|].
    by eapply Hboth.
Qed.

Lemma perform_path w c : FolderCallPath w c.
Proof.
  destruct c as [fs flag | uris flag | index deleteCount fs flag].
  - eapply doAddFolders_path; [reflexivity|]. cbn. by destruct flag.
  - eapply removeFolders_path; [reflexivity|by left].
  - by eapply updateFolders_path.
Qed.

Lemma In_singleton_edit (edit edit' : FolderEdit (URI:=URI)) (rest : list Event) :
  Forall (fun e => is_folderEdit e = false) rest ->
  EvFolderEdit edit ∈ EvFolderEdit edit' :: rest -> edit = edit'.
Proof.
  intros Hrest [E|Hin]%elem_of_cons; [by injection E|].
  rewrite Forall_forall in Hrest. by apply Hrest in Hin.
Qed.

(** C10: when a call of [addFolders], [removeFolders] or [updateFolders]
    delegates an edit to the context service and the edit fails with an
    error, then with [donotNotifyError] unset or false the call resolves,
    having made one notification call after the edit; and the call rejects
    only when [donotNotifyError] is true, and then with that very error.
    With [donotNotifyError] true it does reject, unless it is an
    [updateFolders] call that only deletes. *)
Theorem folder_edit_failure_is_notified w (c : FolderCall) edit e :
  EvFolderEdit edit ∈ (run (perform c) w).1 ->
  contextService_edit w edit = Some e ->
  (donotNotifyError_of c = false ->
   (run (perform c) w).2 = Resolved tt /\
   exists notification,
     (run (perform c) w).1 = [EvFolderEdit edit; notification] /\
     is_notification notification = true) /\
  (forall r, (run (perform c) w).2 = Rejected r ->
             donotNotifyError_of c = true /\ r = RejectError e) /\
  (donotNotifyError_of c = true -> deletes_only c = false ->
   (run (perform c) w).2 = Rejected (RejectError e)).
Proof.
  intros Hin Hfail.
  destruct (perform_path w c) as [Hnone | fs Henter | edit' flag Hdelegate Hflag].
  - rewrite Hnone in Hin. by apply elem_of_nil in Hin.
  - exfalso. rewrite Henter in Hin.
    destruct (createAndEnterWorkspace_only_calls _ fs None allows_not_edit w
                {| trace := []; extensionHostStarted := false |}) as (calls & E & Hcalls).
    unfold run in Hin. destruct (createAndEnterWorkspace fs None w _) as [s' r'].
    cbn in *. rewrite E in Hin. rewrite Forall_forall in Hcalls.
    by apply Hcalls in Hin.
  - rewrite Hdelegate in *. rewrite delegated_edit_run in *.
    destruct (handleWorkspaceConfigurationEditingError_notifies w)
      with (e := e) as (notification & Hn & Hisn).
    assert (edit = edit') as <-.
    { destruct (contextService_edit w edit') as [e'|]; [destruct flag|]; cbn in Hin.
      - by apply (In_singleton_edit _ _ []).
      - destruct (handleWorkspaceConfigurationEditingError_notifies w)
          with (e := e') as (n' & Hn' & Hisn').
        rewrite Hn' in Hin. apply (In_singleton_edit _ _ [n']); [|done].
        constructor; [|done]. by destruct n'.
      - by apply (In_singleton_edit _ _ []). }
    rewrite Hfail. destruct flag; cbn.
    + destruct Hflag as [Hflag | [? _]]; [|done]. rewrite <- Hflag.
      split; [done|]. split; [|done]. by intros r [= <-].
    + split; [|split; [done|]].
      * intros _. split; [done|]. exists notification. by rewrite Hn.
      * intros Hon Hdeletes. destruct Hflag as [Hflag | [_ Hflag]]; congruence.
Qed.

(** A call of [updateFolders] that only deletes hands the deletion to
    [removeFolders] without its [donotNotifyError]: the flag has no effect
    on such a call. *)
Lemma updateFolders_delete_only_drops_flag w index deleteCount foldersToAdd flag :
  foldersToAdd = None \/ foldersToAdd = Some [] ->
  run (updateFolders index deleteCount foldersToAdd flag) w
  = run (updateFolders index deleteCount foldersToAdd None) w.
Proof.
  intros Hadd. unfold updateFolders, run, bind at 1 3, ask. cbv zeta.
  set (foldersToDelete := match deleteCount with Some _ => _ | None => _ end).
  destruct Hadd as [-> | ->]; cbn [length default negb andb];
    by destruct (0 <? Z.of_nat (length foldersToDelete)).
Qed.

(** *** The shutdown prompt *)

(** [saveWorkspaceAs] adds its calls to the session and settles the same
    way whatever the session so far. *)
Lemma saveWorkspaceAs_from w s workspace target :
  saveWorkspaceAs workspace target w s
  = ({| trace := trace s ++ (run (saveWorkspaceAs workspace target) w).1;
        extensionHostStarted := extensionHostStarted s |},
     (run (saveWorkspaceAs workspace target) w).2).
Proof.
  unfold saveWorkspaceAs. promise_eval. destruct s as [t started]. cbn.
  destruct (isEqual _ _); cbn; [by rewrite app_nil_r|].
  destruct (resolveContent w _) as [raw|r]; cbn; [|done].
  destruct (createFile w _ _); cbn; by rewrite <- app_assoc.
Qed.

(** C4: when the shutdown guard prompts over an untitled workspace, Cancel
    resolves to [true] (veto); Don't Save resolves to [false] and deletes
    the untitled workspace; Save with no location picked resolves to [true];
    Save with a location picked and a save-as that succeeds resolves to
    [false], the last calls being the recording of the new identifier in
    the recently opened list and the deletion of the untitled workspace;
    Save with a save-as that fails resolves to [false]. *)
Theorem saveUntitedBeforeShutdown_prompt_flow w reason workspaceIdentifier :
  reason = CLOSE \/ reason = LOAD ->
  getCurrentWorkspaceIdentifier w = Some workspaceIdentifier ->
  isEqualOrParent (configPath workspaceIdentifier) (untitledWorkspacesHome w) = true ->
  (reason = CLOSE -> isMacintosh (platform w) = false -> getWindowCount w <> 1) ->
  exists prompt,
    saveUntitedBeforeShutdown reason w = Some prompt /\
    let chosen := result <$> js_index (confirmButtons (platform w)) (dialogService_show w) in
    (chosen = Some CANCEL -> (run prompt w).2 = Resolved true) /\
    (chosen = Some DONT_SAVE ->
     (run prompt w).2 = Resolved false /\
     EvDeleteUntitledWorkspace workspaceIdentifier ∈ (run prompt w).1) /\
    (chosen = Some SAVE -> showSaveDialog w = None -> (run prompt w).2 = Resolved true) /\
    (chosen = Some SAVE ->
     forall target,
       showSaveDialog w = Some target ->
       (run (saveWorkspaceAs workspaceIdentifier target) w).2 = Resolved tt ->
       (run prompt w).2 = Resolved false /\
       exists before,
         (run prompt w).1
         = before ++
           [EvGetWorkspaceIdentifier target;
            EvAddRecentlyOpened (getWorkspaceLabel w (getWorkspaceIdentifier w target))
                                (getWorkspaceIdentifier w target);
            EvDeleteUntitledWorkspace workspaceIdentifier]) /\
    (chosen = Some SAVE ->
     forall target r,
       showSaveDialog w = Some target ->
       (run (saveWorkspaceAs workspaceIdentifier target) w).2 = Rejected r ->
       (run prompt w).2 = Resolved false).
Proof.
  intros Hreason Hid Huntitled Hprompt.
  unfold saveUntitedBeforeShutdown. rewrite Hid, Huntitled.
  assert (negb (bool_decide (reason = LOAD)) && negb (bool_decide (reason = CLOSE)) = false)
    as ->.
  { destruct Hreason as [-> | ->]; done. }
  cbn [negb]. eexists. split; [reflexivity|].
  assert (bool_decide (reason = CLOSE) && negb (isMacintosh (platform w))
          && (getWindowCount w =? 1) = false) as Hask.
  { destruct (bool_decide_reflect (reason = CLOSE)) as [Hr|Hr]; [|done].
    destruct (isMacintosh (platform w)) eqn:Hmac; [done|]. cbn.
    apply Z.eqb_neq. by apply Hprompt. }
  unfold pickNewWorkspacePath. promise_eval. rewrite Hask. cbn.
  destruct (js_index (confirmButtons (platform w)) (dialogService_show w)) as [button|];
    cbn; [|by repeat split].
  destruct (result button); cbn.
  - (* Save *)
    split; [done|]. split; [done|]. split; [|split].
    + intros _ Hpick. by rewrite Hpick.
    + intros _ target Hpick Hsave. rewrite Hpick. cbn.
      rewrite saveWorkspaceAs_from. unfold run. rewrite Hsave. cbn. split; [done|].
      match goal with
      | |- exists _, ?a :: ?b :: ?c :: ((?x ++ _) ++ _) ++ _ = _ => exists (a :: b :: c :: x)
      end.
      cbn. by rewrite <- !app_assoc.
    + intros _ target r Hpick Hsave. rewrite Hpick. cbn.
      rewrite saveWorkspaceAs_from. unfold run. by rewrite Hsave.
  - (* Don't Save *)
    split; [done|]. split; [|by repeat split]. intros _. split; [done|].
    apply list_elem_of_In. cbn. tauto.
  - (* Cancel *)
    by repeat split.
Qed.

(** *** Replacing the single folder *)

Lemma js_slice_singleton {A} (x : A) start stop :
  js_slice [x] start stop = [] \/ js_slice [x] start stop = [x].
Proof.
  unfold js_slice.
  destruct (Z.to_nat (relativeIndex (Z.of_nat (length [x])) start)) as [|k]; cbn.
  - destruct (Z.to_nat _) as [|n]; cbn; [by left|right]. by rewrite take_nil.
  - left. by rewrite drop_nil, take_nil.
Qed.

Lemma then_after_call_prefix {A B C} e answer
    (k : A -> M B) (f : B -> M C) (g : Rejection -> M C) w s :
  (forall a, only_calls (fun _ => True) (k a)) ->
  (forall b, only_calls (fun _ => True) (f b)) ->
  (forall r, only_calls (fun _ => True) (g r)) ->
  exists rest, trace (then_ (bind (call e answer) k) f g w s).1 = trace s ++ e :: rest.
Proof.
  intros Hk Hf Hg. unfold then_, bind, call.
  set (s1 := {| trace := trace s ++ [e]; extensionHostStarted := extensionHostStarted s |}).
  destruct (answer w) as [a|r].
  - destruct (Hk a w s1) as (c2 & E2 & _). destruct (k a w s1) as [s2 [b|r]]; cbn in E2.
    + destruct (Hf b w s2) as (c3 & E3 & _). exists (c2 ++ c3).
      rewrite E3, E2. cbn. by rewrite <- !app_assoc.
    + destruct (Hg r w s2) as (c3 & E3 & _). exists (c2 ++ c3).
      rewrite E3, E2. cbn. by rewrite <- !app_assoc.
  - destruct (Hg r w s1) as (c3 & E3 & _). exists c3.
    rewrite E3. cbn. by rewrite <- !app_assoc.
Qed.

(** Outside tests, [enterWorkspace] first stops the extension host and then
    asks the host to enter the workspace. *)
Lemma enterWorkspace_first_calls w s path :
  extensionTestsLocationURI w = None ->
  exists rest,
    trace (enterWorkspace path w s).1
    = trace s ++ EvStopExtensionHost :: EvEnterWorkspace path :: rest.
Proof.
  intros Htests. unfold enterWorkspace. unfold bind at 1, ask. rewrite Htests.
  cbn [toBoolean option_truthy]. unfold bind at 1 2, emit at 1, set_extensionHostStarted at 1.
  match goal with
  | |- context [then_ (bind (call ?e ?answer) ?k) ?f ?g w ?s1] =>
      destruct (then_after_call_prefix e answer k f g w s1) as (rest & E)
  end.
  - intros [result|]; only_calls_auto;
      first [by apply migrate_only_calls, allows_all
            | by apply contextService_initialize_only_calls;
                [apply allows_all|apply startExtensionHost_only_calls, allows_all]].
  - intros b. apply only_calls_ret.
  - intros r. only_calls_auto. by apply startExtensionHost_only_calls, allows_all.
  - exists rest. rewrite E. cbn. by rewrite <- app_assoc.
Qed.

(** C2, as the code has it: in a FOLDER state with the sole folder [F], an
    [updateFolders] whose deletion range covers [F] and whose folders to add
    are not empty goes the way of [createAndEnterWorkspace] with exactly the
    folders to add: its first call creates an untitled workspace from that
    list as passed, in the order passed and without de-duplication, and no
    edit is delegated; once the workspace is created, and outside tests, the
    host is asked to enter it.  [F] is not carried over: for [A; B] with
    [A], [B] and [F] pairwise different by comparison key the list is
    its own de-duplication and holds no folder equal to [F]. *)
Theorem updateFolders_replaces_single_folder
    w index deleteCount foldersToAdd donotNotifyError F :
  configuration (getWorkspace w) = None ->
  workspace_folders w = [F] ->
  js_slice [F] index (index + deleteCount) <> [] ->
  foldersToAdd <> [] ->
  let call := updateFolders index (Some deleteCount) (Some foldersToAdd) donotNotifyError in
  run call w = run (createAndEnterWorkspace foldersToAdd None) w /\
  (run call w).1 !! 0%nat
  = Some (EvCreateUntitledWorkspace foldersToAdd (remoteAuthority w)) /\
  Forall (fun e => is_folderEdit e = false) (run call w).1 /\
  (forall untitled,
      createUntitledWorkspace w foldersToAdd (remoteAuthority w) = Resolved untitled ->
      extensionTestsLocationURI w = None ->
      (run call w).1 !! 2%nat = Some (EvEnterWorkspace (configPath untitled))) /\
  (forall A B,
      foldersToAdd = [A; B] ->
      getComparisonKey (uri A) <> getComparisonKey (uri B) ->
      getComparisonKey (uri A) <> getComparisonKey (folder_uri F) ->
      getComparisonKey (uri B) <> getComparisonKey (folder_uri F) ->
      distinct foldersToAdd (fun folder => getComparisonKey (uri folder)) = foldersToAdd /\
      Forall (fun folder => isEqual (uri folder) (folder_uri F) = false) foldersToAdd).
Proof.
  intros Hconf Hfolders Hrange Hadd call.
  assert (getWorkbenchState w = FOLDER) as Hstate.
  { unfold getWorkbenchState. unfold workspace_folders in Hfolders. by rewrite Hconf, Hfolders. }
  assert (run call w = run (createAndEnterWorkspace foldersToAdd None) w) as Hrun.
  { subst call. unfold updateFolders. unfold run at 1, bind at 1, ask.
    rewrite Hfolders. destruct (js_slice_singleton F index (index + deleteCount)) as [E|E];
      [done|]. rewrite E.
    destruct foldersToAdd as [|x l]; [done|]. cbn [map length default].
    assert ((0 <? Z.of_nat (S (length l))) = true) as -> by (apply Z.ltb_lt; lia).
    change (0 <? Z.of_nat 1) with true. cbn [negb andb].
    unfold includesSingleFolderWorkspace, bind, ask. rewrite Hstate, Hfolders. cbn.
    unfold isEqual. rewrite !bool_decide_eq_true_2 by done. reflexivity. }
  split; [done|]. rewrite Hrun. split; [apply createAndEnterWorkspace_first_call|].
  split; [|split].
  - destruct (createAndEnterWorkspace_only_calls _ foldersToAdd None allows_not_edit w
                {| trace := []; extensionHostStarted := false |}) as (calls & E & Hcalls).
    unfold run. destruct (createAndEnterWorkspace foldersToAdd None w _) as [s' r'].
    cbn in *. by rewrite E.
  - intros untitled Hcreate Htests.
    unfold createAndEnterWorkspace. promise_eval. rewrite Hcreate. cbn.
    destruct (enterWorkspace_first_calls w
                {| trace := [EvCreateUntitledWorkspace foldersToAdd (remoteAuthority w)];
                   extensionHostStarted := false |} (configPath untitled) Htests) as (rest & E).
    destruct (enterWorkspace _ w _) as [s' r']. cbn in *. by rewrite E.
  - intros A B -> HAB HAF HBF. split.
    + rewrite distinct_cons. cbn. rewrite bool_decide_eq_false_2; [done|].
      intros [?|?%elem_of_nil]%elem_of_cons; [congruence|done].
    + unfold isEqual. repeat constructor; by apply bool_decide_eq_false_2.
Qed.

(** *** The target check of the two entering methods *)

(** Neither method consults what the validity check resolves to: each goes
    on as if the check had only been started. *)
Lemma saveAndEnterWorkspace_goes_on w path :
  run (saveAndEnterWorkspace path) w
  = run (bind (unawaited (isValidTargetWorkspacePath path))
           (fun _ =>
              match getCurrentWorkspaceIdentifier w with
              | None => reject RejectNull
              | Some workspaceIdentifier =>
                  bind (saveWorkspaceAs workspaceIdentifier path)
                    (fun _ => enterWorkspace path)
              end)) w.
Proof.
  unfold saveAndEnterWorkspace, run, bind, unawaited, ask.
  by destruct (isValidTargetWorkspacePath path w _) as [s' settled].
Qed.

Lemma createAndEnterWorkspace_goes_on w fs path :
  run (createAndEnterWorkspace fs (Some path)) w
  = run (bind (unawaited (isValidTargetWorkspacePath path))
           (fun _ =>
              bind (call (EvCreateUntitledWorkspace fs (remoteAuthority w))
                      (fun w => createUntitledWorkspace w fs (remoteAuthority w)))
                (fun untitledWorkspace =>
                   bind (saveWorkspaceAs untitledWorkspace path)
                     (fun _ => enterWorkspace path)))) w.
Proof.
  unfold createAndEnterWorkspace, run, bind, unawaited, ask, ret.
  destruct (isValidTargetWorkspacePath path w _) as [s' settled]. cbn.
  unfold call. destruct (createUntitledWorkspace w fs (remoteAuthority w)); [|done].
  by destruct (saveWorkspaceAs _ _ w _) as [s2 [[]|r]].
Qed.

(** ** Further properties of the code *)

(** *** Entering a workspace *)

Ltac enter_unfold :=
  unfold enterWorkspace, migrate, migrateStorage, migrateWorkspaceSettings,
    doCopyWorkspaceSettings, contextService_initialize_call, startExtensionHost.

(** When the host declines to enter (it resolves to nothing),
    [enterWorkspace] resolves having stopped the extension host and asked
    the host, and nothing else: the extension host is not started again. *)
Theorem enterWorkspace_host_declines w path :
  extensionTestsLocationURI w = None ->
  windowService_enterWorkspace w path = Resolved None ->
  run (enterWorkspace path) w = ([EvStopExtensionHost; EvEnterWorkspace path], Resolved tt).
Proof.
  intros Htests Henter. enter_unfold. promise_eval. rewrite Htests. cbn.
  by rewrite Henter.
Qed.

(** When every step succeeds, [enterWorkspace] makes its calls in this
    order: stop the extension host, ask the host, migrate the storage, write
    the settings (from a FOLDER state only), reinitialize the backup service
    (if it is the node one), reinitialize the context service, reload the
    window (with a remote authority only), start the extension host. *)
Theorem enterWorkspace_steps_in_order w path entered :
  extensionTestsLocationURI w = None ->
  windowService_enterWorkspace w path = Resolved (Some entered) ->
  storage_migrate w (workspace entered) = Resolved tt ->
  (getWorkbenchState w = FOLDER ->
   forall settings,
     jsonEditingService_write w (configPath (workspace entered)) settings = Resolved tt) ->
  contextService_initialize w (workspace entered) = InitializeDone ->
  exists settingsCalls,
    run (enterWorkspace path) w
    = ([EvStopExtensionHost; EvEnterWorkspace path; EvMigrateStorage (workspace entered)]
       ++ settingsCalls
       ++ (if backupFileService_isNode w
           then [EvBackupInitialize (backupPath entered)] else [])
       ++ [EvContextInitialize (workspace entered)]
       ++ (if toBoolean (remoteAuthority w) then [EvReloadWindow] else [])
       ++ [EvStartExtensionHost],
       Resolved tt) /\
    (getWorkbenchState w <> FOLDER -> settingsCalls = []) /\
    (getWorkbenchState w = FOLDER ->
     exists settings,
       settingsCalls = [EvJsonWrite (configPath (workspace entered)) "settings" settings true]).
Proof.
  intros Htests Henter Hstorage Hwrite Hinit. enter_unfold. promise_eval.
  rewrite Htests. cbn. rewrite Henter. cbn. rewrite Hstorage. cbn.
  case_bool_decide as Hstate; cbn.
  - rewrite Hwrite by done. cbn. eexists [_]. split; [|split; [done|by eexists]].
    rewrite Hinit.
    destruct (backupFileService_isNode w), (toBoolean (remoteAuthority w)); reflexivity.
  - exists []. split; [|split; [done|done]].
    rewrite Hinit.
    destruct (backupFileService_isNode w), (toBoolean (remoteAuthority w)); reflexivity.
Qed.

(** Outside tests and unless the host declines, [enterWorkspace] stops the
    extension host once, as its first call, and starts it exactly once,
    whichever step fails or none: after a failure before the
    reinitialization has started it, the failure handler starts it; after a
    failure that follows the start, the handler leaves it alone. *)
Theorem enterWorkspace_starts_extension_host_once w path :
  extensionTestsLocationURI w = None ->
  windowService_enterWorkspace w path <> Resolved None ->
  (run (enterWorkspace path) w).1 !! 0%nat = Some EvStopExtensionHost /\
  length (List.filter is_stopExtensionHost ((run (enterWorkspace path) w).1)) = 1%nat /\
  length (List.filter is_startExtensionHost ((run (enterWorkspace path) w).1)) = 1%nat.
Proof.
  intros Htests Henter. enter_unfold. promise_eval. rewrite Htests. cbn.
  destruct (windowService_enterWorkspace w path) as [[entered|]|r]; [|done|]; cbn;
    repeat (case_match; simplify_eq/=); done.
Qed.

(** When a migration step fails after the host has entered, the later steps
    are not taken and nothing is undone: a failing storage migration is
    followed only by the restart of the extension host; a failing settings
    write (from a FOLDER state) comes after the storage migration and is
    followed only by the restart.  Neither the backup service nor the
    context service is reinitialized, and the step's rejection is passed
    on. *)
Theorem enterWorkspace_migration_failure w path entered r :
  extensionTestsLocationURI w = None ->
  windowService_enterWorkspace w path = Resolved (Some entered) ->
  let restart :=
    (if toBoolean (remoteAuthority w) then [EvReloadWindow] else [])
    ++ [EvStartExtensionHost] in
  (storage_migrate w (workspace entered) = Rejected r ->
   run (enterWorkspace path) w
   = ([EvStopExtensionHost; EvEnterWorkspace path; EvMigrateStorage (workspace entered)]
      ++ restart, Rejected r)) /\
  (storage_migrate w (workspace entered) = Resolved tt ->
   getWorkbenchState w = FOLDER ->
   (forall settings,
       jsonEditingService_write w (configPath (workspace entered)) settings = Rejected r) ->
   exists settings,
     run (enterWorkspace path) w
     = ([EvStopExtensionHost; EvEnterWorkspace path; EvMigrateStorage (workspace entered);
         EvJsonWrite (configPath (workspace entered)) "settings" settings true]
        ++ restart, Rejected r)).
Proof.
  intros Htests Henter restart. subst restart. split.
  - intros Hstorage. enter_unfold. promise_eval. rewrite Htests. cbn.
    rewrite Henter. cbn. rewrite Hstorage. cbn.
    by destruct (toBoolean (remoteAuthority w)).
  - intros Hstorage Hstate Hwrite. enter_unfold. promise_eval. rewrite Htests. cbn.
    rewrite Henter. cbn. rewrite Hstorage. cbn.
    rewrite (bool_decide_eq_true_2 _ Hstate). cbn.
    rewrite Hwrite. cbn. eexists.
    by destruct (toBoolean (remoteAuthority w)).
Qed.

Lemma enterWorkspace_entering_calls path :
  only_calls (fun e : @Event URI => is_enteringCall e = true) (enterWorkspace path).
Proof. enter_unfold. only_calls_auto. Qed.

(** [enterWorkspace] calls the extension host, the window host, the
    storage, the settings write, the backup service and the context service,
    and nothing else: it reads and writes no workspace file, shows the user
    nothing, and edits no folder. *)
Theorem enterWorkspace_calls_nothing_else w path e :
  e ∈ (run (enterWorkspace path) w).1 ->
  is_enteringCall e = true /\ is_fileCall e = false /\
  is_userFacing e = false /\ is_folderEdit e = false.
Proof.
  intros Hin.
  destruct (enterWorkspace_entering_calls path w
              {| trace := []; extensionHostStarted := false |}) as (calls & E & Hcalls).
  unfold run in Hin. destruct (enterWorkspace path w _) as [s' r']. cbn in *.
  rewrite E in Hin. rewrite Forall_forall in Hcalls. apply Hcalls in Hin.
  by destruct e.
Qed.

(** Under the extension tests, entering is refused before any call; a
    [createAndEnterWorkspace] without a target has by then created its
    untitled workspace, and ends rejected with the untitled workspace left
    behind and the extension host untouched. *)
Theorem entering_is_refused_in_tests w location :
  extensionTestsLocationURI w = Some location ->
  let refusal := newError "Entering a new workspace is not possible in tests." in
  (forall path, run (enterWorkspace path) w = ([], Rejected refusal)) /\
  (forall fs untitled,
      createUntitledWorkspace w fs (remoteAuthority w) = Resolved untitled ->
      run (createAndEnterWorkspace fs None) w
      = ([EvCreateUntitledWorkspace fs (remoteAuthority w)], Rejected refusal)).
Proof.
  intros Htests refusal. split.
  - intros path. unfold enterWorkspace. promise_eval. by rewrite Htests.
  - intros fs untitled Hcreate. unfold createAndEnterWorkspace, enterWorkspace.
    promise_eval. rewrite Hcreate. cbn. by rewrite Htests.
Qed.

(** *** Copying settings *)


(** [migrate] writes settings exactly when the storage migration succeeded
    and the window is in a FOLDER state; in the states EMPTY and WORKSPACE,
    and after a failed storage migration, its only call is the storage
    migration, whose outcome is its own. *)
Theorem migrate_writes_settings_only_from_folder w toWorkspace :
  (storage_migrate w toWorkspace = Resolved tt /\ getWorkbenchState w = FOLDER ->
   exists settings,
     run (migrate toWorkspace) w
     = ([EvMigrateStorage toWorkspace;
         EvJsonWrite (configPath toWorkspace) "settings" settings true],
        jsonEditingService_write w (configPath toWorkspace) settings)) /\
  (~ (storage_migrate w toWorkspace = Resolved tt /\ getWorkbenchState w = FOLDER) ->
   run (migrate toWorkspace) w
   = ([EvMigrateStorage toWorkspace], storage_migrate w toWorkspace)).
Proof.
  unfold migrate, migrateStorage, migrateWorkspaceSettings, doCopyWorkspaceSettings.
  promise_eval. split.
  - intros [-> Hstate]. cbn. rewrite (bool_decide_eq_true_2 _ Hstate). by eexists.
  - intros Hnot. destruct (storage_migrate w toWorkspace) as [[]|r]; cbn; [|done].
    case_bool_decide; [|done]. by destruct Hnot.
Qed.

(** *** Folder operations, state by state *)

Lemma includesSingleFolderWorkspace_other_state w s uris :
  getWorkbenchState w <> FOLDER ->
  includesSingleFolderWorkspace uris w s = (s, Resolved false).
Proof.
  intros Hstate. unfold includesSingleFolderWorkspace. promise_eval.
  by rewrite bool_decide_eq_false_2.
Qed.

Lemma includesSingleFolderWorkspace_single w s uris F :
  configuration (getWorkspace w) = None ->
  workspace_folders w = [F] ->
  includesSingleFolderWorkspace uris w s
  = (s, Resolved (existsb (fun folder => isEqual folder (folder_uri F)) uris)).
Proof.
  intros Hconf Hfolders.
  assert (getWorkbenchState w = FOLDER) as Hstate.
  { unfold getWorkbenchState. unfold workspace_folders in Hfolders. by rewrite Hconf, Hfolders. }
  unfold includesSingleFolderWorkspace. promise_eval.
  by rewrite (bool_decide_eq_true_2 _ Hstate), Hfolders.
Qed.

Lemma workspace_state w location :
  configuration (getWorkspace w) = Some location -> getWorkbenchState w = WORKSPACE.
Proof. intros Hconf. unfold getWorkbenchState. by rewrite Hconf. Qed.

Lemma removeFolders_other_state w uris flag :
  getWorkbenchState w <> FOLDER ->
  run (removeFolders uris flag) w
  = run (delegate (EditRemoveFolders uris) (default false flag)) w.
Proof.
  intros Hstate. unfold removeFolders, run, bind.
  by rewrite includesSingleFolderWorkspace_other_state.
Qed.

Lemma doAddFolders_in_workspace w location fs index flag :
  configuration (getWorkspace w) = Some location ->
  run (doAddFolders fs index flag) w
  = run (delegate (EditAddFolders fs index) (default false flag)) w.
Proof.
  intros Hconf. unfold doAddFolders, run, bind, ask.
  by rewrite (workspace_state _ _ Hconf).
Qed.

Lemma existsb_same_key (uris : list URI) (location : URI) :
  existsb (fun folder => isEqual folder location) uris = true
  <-> exists folder, folder ∈ uris /\ getComparisonKey folder = getComparisonKey location.
Proof.
  rewrite existsb_exists. unfold isEqual. split.
  - intros (folder & Hin & Hk). exists folder.
    split; [by apply list_elem_of_In | by apply bool_decide_eq_true in Hk].
  - intros (folder & Hin & Hk). exists folder.
    split; [by apply list_elem_of_In | by apply bool_decide_eq_true].
Qed.

(** In a FOLDER state, [removeFolders] enters a new, empty workspace when
    one of the locations to remove has the comparison key of the opened
    folder, and creates it with no folder at all, whatever else was to be
    removed; otherwise it delegates the removal, as given, to the context
    service. *)
Theorem removeFolders_of_single_folder w F uris flag :
  configuration (getWorkspace w) = None ->
  workspace_folders w = [F] ->
  let covered :=
    exists folder, folder ∈ uris /\
                   getComparisonKey folder = getComparisonKey (folder_uri F) in
  (covered ->
   run (removeFolders uris flag) w = run (createAndEnterWorkspace [] None) w /\
   (run (removeFolders uris flag) w).1 !! 0%nat
   = Some (EvCreateUntitledWorkspace [] (remoteAuthority w))) /\
  (~ covered ->
   run (removeFolders uris flag) w
   = run (delegate (EditRemoveFolders uris) (default false flag)) w).
Proof.
  intros Hconf Hfolders covered. subst covered. rewrite <- existsb_same_key.
  unfold removeFolders, run at 1 3 4, bind.
  rewrite (includesSingleFolderWorkspace_single _ _ _ F) by done.
  destruct (existsb _ uris); split; try done.
  intros _. split; [done|]. apply createAndEnterWorkspace_first_call.
Qed.

Lemma ltb_length {A} (l : list A) :
  (0 <? Z.of_nat (length l)) = match l with [] => false | _ :: _ => true end.
Proof. destruct l; [done|]. apply Z.ltb_lt. cbn [length]. lia. Qed.

Lemma updateFolders_in_workspace_paths w location index deleteCount fs flag :
  configuration (getWorkspace w) = Some location ->
  let deleted :=
    match deleteCount with
    | Some n => map folder_uri (js_slice (workspace_folders w) index (index + n))
    | None => []
    end in
  run (updateFolders index deleteCount fs flag) w
  = match default [] fs, deleted with
    | [], [] => ([], Resolved tt)
    | _ :: _, [] =>
        run (delegate (EditAddFolders (default [] fs) (Some index)) (default false flag)) w
    | [], _ :: _ => run (delegate (EditRemoveFolders deleted) false) w
    | _ :: _, _ :: _ =>
        run (delegate (EditUpdateFolders (default [] fs) deleted (Some index))
               (default false flag)) w
    end.
Proof.
  intros Hconf deleted. pose proof (workspace_state _ _ Hconf) as Hstate.
  assert (getWorkbenchState w <> FOLDER) as Hother by (by rewrite Hstate).
  unfold updateFolders. unfold run at 1, bind at 1, ask. cbv zeta. fold deleted.
  rewrite ltb_length.
  assert (match fs with Some l => 0 <? Z.of_nat (length l) | None => false end
          = match default [] fs with [] => false | _ :: _ => true end) as ->.
  { destruct fs as [l|]; [apply ltb_length|done]. }
  destruct fs as [[|x l]|], deleted as [|d ds];
    cbn [default from_option Datatypes.id negb andb]; try done.
  - exact (removeFolders_other_state w (d :: ds) None Hother).
  - exact (doAddFolders_in_workspace w location _ _ _ Hconf).
  - unfold bind. rewrite includesSingleFolderWorkspace_other_state by done.
    by rewrite Hstate.
  - exact (removeFolders_other_state w (d :: ds) None Hother).
Qed.

(** With a workspace file open, [updateFolders] enters no workspace: it
    hands the context service one edit, an addition at [index] when nothing
    is deleted, a removal when nothing is added, and otherwise one combined
    update of the folders to add, the folders in the deletion range and
    [index]. *)
Theorem updateFolders_in_workspace w location index deleteCount adds flag :
  configuration (getWorkspace w) = Some location ->
  adds <> [] ->
  let deleted :=
    match deleteCount with
    | Some n => map folder_uri (js_slice (workspace_folders w) index (index + n))
    | None => []
    end in
  (deleted = [] ->
   run (updateFolders index deleteCount (Some adds) flag) w
   = run (delegate (EditAddFolders adds (Some index)) (default false flag)) w) /\
  (deleted <> [] ->
   run (updateFolders index deleteCount (Some adds) flag) w
   = run (delegate (EditUpdateFolders adds deleted (Some index)) (default false flag)) w) /\
  (deleted <> [] ->
   run (updateFolders index deleteCount None flag) w
   = run (delegate (EditRemoveFolders deleted) false) w).
Proof.
  intros Hconf Hadds deleted.
  pose proof (updateFolders_in_workspace_paths w location index deleteCount
                (Some adds) flag Hconf) as Hsome.
  pose proof (updateFolders_in_workspace_paths w location index deleteCount
                None flag Hconf) as Hnone.
  cbv zeta in Hsome, Hnone. fold deleted in Hsome, Hnone. cbn [default] in Hsome, Hnone.
  destruct adds as [|x l]; [done|]. destruct deleted as [|d ds]; by repeat split.
Qed.

Lemma delegate_calls w edit flag :
  Forall (fun e => is_folderEdit e || is_notification e = true)
    (run (delegate edit flag) w).1.
Proof.
  unfold delegate. rewrite delegated_edit_run.
  destruct (contextService_edit w edit) as [e|]; [destruct flag|]; cbn.
  - by repeat constructor.
  - destruct (handleWorkspaceConfigurationEditingError_notifies w e) as (n & -> & Hn).
    constructor; [done|]. constructor; [|done]. by rewrite Hn, orb_true_r.
  - by repeat constructor.
Qed.

(** With a workspace file open, none of [addFolders], [removeFolders] and
    [updateFolders] creates or enters a workspace or touches the extension
    host: every call they make is a folder edit handed to the context
    service or a notification of its failure. *)
Theorem folder_calls_in_workspace_only_edit w location (c : FolderCall) :
  configuration (getWorkspace w) = Some location ->
  Forall (fun e => is_folderEdit e || is_notification e = true) (run (perform c) w).1.
Proof.
  intros Hconf. pose proof (workspace_state _ _ Hconf) as Hstate.
  destruct c as [fs flag | uris flag | index deleteCount fs flag]; cbn [perform].
  - unfold addFolders. erewrite doAddFolders_in_workspace by done. apply delegate_calls.
  - rewrite removeFolders_other_state by (by rewrite Hstate). apply delegate_calls.
  - erewrite updateFolders_in_workspace_paths by done.
    repeat case_match; first [apply delegate_calls | constructor].
Qed.

Lemma distinct_from_nil_seen {A} (keyFn : A -> string) seen (l : list A) :
  distinct_from keyFn seen l = [] <-> Forall (fun x => keyFn x ∈ seen) l.
Proof.
  revert seen. induction l as [|x l IH]; intros seen; cbn; [by split; [constructor|]|].
  case_bool_decide as Hx.
  - rewrite IH. split; [by constructor | by inversion 1].
  - split; [done|]. by inversion 1.
Qed.

(** A non-empty list whose entries all carry one key de-duplicates to its
    first entry. *)
Lemma distinct_one_key {A} (keyFn : A -> string) key x (l : list A) :
  Forall (fun y => keyFn y = key) (x :: l) -> distinct (x :: l) keyFn = [x].
Proof.
  intros Hall. rewrite distinct_cons. f_equal. apply distinct_from_nil_seen.
  inversion Hall as [|? ? Hx Hl]; subst. eapply Forall_impl; [exact Hl|].
  intros y Hy. cbn in Hy. rewrite Hy. apply elem_of_cons; by left.
Qed.

Lemma js_splice_insert_single {A} (x : A) start items :
  js_splice_insert [x] start items = items ++ [x]
  \/ js_splice_insert [x] start items = x :: items.
Proof.
  unfold js_splice_insert.
  destruct (Z.to_nat (relativeIndex (Z.of_nat (length [x])) start)) as [|k]; cbn.
  - by left.
  - right. by rewrite take_nil, drop_nil, app_nil_r.
Qed.

Lemma single_folder_state w F :
  configuration (getWorkspace w) = None -> workspace_folders w = [F] ->
  getWorkbenchState w = FOLDER.
Proof.
  intros Hconf Hfolders. unfold getWorkbenchState.
  unfold workspace_folders in Hfolders. by rewrite Hconf, Hfolders.
Qed.

(** What [doAddFolders] does in a FOLDER state, by the candidate list. *)
Lemma doAddFolders_single_folder w F adds index flag :
  configuration (getWorkspace w) = None ->
  workspace_folders w = [F] ->
  let candidates :=
    distinct (js_splice_insert [{| uri := folder_uri F; name := None |}]
                (match index with Some i => i | None => 1 end) adds)
             (fun folder => getComparisonKey (uri folder)) in
  run (doAddFolders adds index flag) w
  = if Z.of_nat (length candidates) =? 1 then ([], Resolved tt)
    else run (createAndEnterWorkspace candidates None) w.
Proof.
  intros Hconf Hfolders candidates.
  pose proof (single_folder_state w F Hconf Hfolders) as Hstate.
  unfold doAddFolders, run at 1, bind, ask. rewrite Hstate, Hfolders.
  cbn [map length]. change (Z.of_nat 1) with 1. fold candidates.
  rewrite (bool_decide_eq_false_2 (FOLDER = WORKSPACE)) by done.
  rewrite (bool_decide_eq_false_2 (FOLDER = EMPTY)) by done.
  rewrite (bool_decide_eq_true_2 (FOLDER = FOLDER)) by done.
  cbn [negb andb orb]. by destruct (Z.of_nat (length candidates) =? 1).
Qed.


(** [addFolders] with no folder at all does nothing while no workspace file
    is open, but with a workspace file open it still hands the context
    service an addition of no folders. *)
Theorem addFolders_of_nothing w flag :
  (configuration (getWorkspace w) = None ->
   workspace_folders w = [] \/ (exists F, workspace_folders w = [F]) ->
   run (addFolders [] flag) w = ([], Resolved tt)) /\
  (forall location,
      configuration (getWorkspace w) = Some location ->
      run (addFolders [] flag) w
      = run (delegate (EditAddFolders [] None) (default false flag)) w).
Proof.
  split.
  - intros Hconf [Hnone | [F Hone]].
    + unfold addFolders, doAddFolders, run, bind, ask.
      assert (getWorkbenchState w = EMPTY) as ->.
      { unfold getWorkbenchState. unfold workspace_folders in Hnone. by rewrite Hconf, Hnone. }
      by rewrite Hnone.
    + unfold addFolders. rewrite (doAddFolders_single_folder w F) by done. cbv zeta.
      change (js_splice_insert _ 1 []) with [{| uri := folder_uri F; name := None |}].
      by rewrite distinct_cons.
  - intros location Hconf. unfold addFolders.
    erewrite doAddFolders_in_workspace by done. by destruct flag as [[]|].
Qed.

(** *** The deletion range of [updateFolders] *)

Lemma js_slice_from_position {A} (l : list A) index n :
  0 <= index -> 0 <= n ->
  js_slice l index (index + n) = take (Z.to_nat n) (drop (Z.to_nat index) l).
Proof.
  intros Hindex Hn. unfold js_slice, relativeIndex.
  rewrite (proj2 (Z.ltb_ge index 0)), (proj2 (Z.ltb_ge (index + n) 0)) by lia.
  destruct (decide (index <= Z.of_nat (length l))) as [Hin|Hout].
  - rewrite (Z.min_l index) by done.
    destruct (decide (index + n <= Z.of_nat (length l))) as [Hfits|Hover].
    + rewrite Z.min_l by done. f_equal. lia.
    + rewrite Z.min_r by lia. rewrite !take_ge; [done| |];
        rewrite length_drop; lia.
  - rewrite !Z.min_r by lia. rewrite !drop_ge by lia. by rewrite !take_nil.
Qed.

Lemma js_slice_nothing {A} (l : list A) index n :
  l = []
  \/ Z.of_nat (length l) <= index
  \/ (0 <= index + n /\ n <= 0)
  \/ (index < 0 /\ 0 <= index + n <= Z.of_nat (length l) + index) ->
  js_slice l index (index + n) = [].
Proof.
  intros [-> | [Hbeyond | [[Hend Hn] | [Hindex Hend]]]]; unfold js_slice, relativeIndex.
  - by rewrite drop_nil, take_nil.
  - rewrite drop_ge; [by rewrite take_nil|].
    destruct (index <? 0) eqn:E; [apply Z.ltb_lt in E; lia|]. lia.
  - replace (Z.to_nat _) with 0%nat; [done|].
    rewrite (proj2 (Z.ltb_ge index 0)), (proj2 (Z.ltb_ge (index + n) 0)); lia.
  - replace (Z.to_nat _) with 0%nat; [done|].
    rewrite (proj2 (Z.ltb_lt index 0)), (proj2 (Z.ltb_ge (index + n) 0)); lia.
Qed.

(** [updateFolders] deletes nothing, and goes on as if no [deleteCount] had
    been given, when the window has no folders, when [index] is at or past
    the end of the folder list, when [deleteCount] is zero or negative with
    [index + deleteCount] not below zero, and also when [index] is negative
    and [index + deleteCount] reaches zero without passing the position
    [index] counts to: the end of the range is then taken from the start of
    the list, so that a call with [index = -1] and [deleteCount = 1] does
    not delete the last folder. *)
Theorem updateFolders_empty_deletion_range w index n fs flag :
  workspace_folders w = []
  \/ Z.of_nat (length (workspace_folders w)) <= index
  \/ (0 <= index + n /\ n <= 0)
  \/ (index < 0 /\ 0 <= index + n <= Z.of_nat (length (workspace_folders w)) + index) ->
  run (updateFolders index (Some n) fs flag) w = run (updateFolders index None fs flag) w /\
  (fs = None \/ fs = Some [] ->
   run (updateFolders index (Some n) fs flag) w = ([], Resolved tt)).
Proof.
  intros Hrange. apply js_slice_nothing in Hrange.
  unfold updateFolders, run, bind at 1 3 5, ask. rewrite Hrange. cbn [map].
  split; [done|]. by intros [-> | ->].
Qed.

(** With a workspace file open and nothing to add, [updateFolders] with
    [index] and [deleteCount] not negative removes the folders at the
    positions [index] to [index + deleteCount - 1], as far as the folder
    list goes: it hands their locations, in order, to the context service's
    removal, and does so with error notification on, whatever its own
    [donotNotifyError]. *)
Theorem updateFolders_deletes_by_position w location index n flag :
  configuration (getWorkspace w) = Some location ->
  0 <= index -> 0 <= n ->
  let deleted :=
    map folder_uri (take (Z.to_nat n) (drop (Z.to_nat index) (workspace_folders w))) in
  deleted <> [] ->
  run (updateFolders index (Some n) None flag) w
  = run (delegate (EditRemoveFolders deleted) false) w.
Proof.
  intros Hconf Hindex Hn deleted Hsome.
  rewrite (updateFolders_in_workspace_paths w location) by done. cbv zeta.
  rewrite js_slice_from_position by done. fold deleted. cbn [default].
  by destruct deleted.
Qed.

(** A negative [deleteCount] is not taken as zero: when it brings
    [index + deleteCount] below zero, the end of the range is counted from
    the end of the folder list, and the folders from position [index] up to
    that end are deleted. *)
Theorem updateFolders_negative_deleteCount w location index n flag :
  configuration (getWorkspace w) = Some location ->
  0 <= index -> index + n < 0 ->
  let deleted :=
    map folder_uri
      (take (Z.to_nat (Z.of_nat (length (workspace_folders w)) + n))
            (drop (Z.to_nat index) (workspace_folders w))) in
  deleted <> [] ->
  run (updateFolders index (Some n) None flag) w
  = run (delegate (EditRemoveFolders deleted) false) w.
Proof.
  intros Hconf Hindex Hend deleted Hsome.
  rewrite (updateFolders_in_workspace_paths w location) by done. cbv zeta.
  assert (js_slice (workspace_folders w) index (index + n)
          = take (Z.to_nat (Z.of_nat (length (workspace_folders w)) + n))
                 (drop (Z.to_nat index) (workspace_folders w))) as ->.
  { unfold js_slice, relativeIndex.
    rewrite (proj2 (Z.ltb_ge index 0)), (proj2 (Z.ltb_lt (index + n) 0)) by lia.
    destruct (decide (index <= Z.of_nat (length (workspace_folders w)))) as [Hin|Hout].
    - rewrite Z.min_l by done. f_equal. lia.
    - rewrite Z.min_r by lia. rewrite !drop_ge by lia. by rewrite !take_nil. }
  fold deleted. cbn [default]. by destruct deleted.
Qed.

(** *** Saving and entering *)

Lemma isValidTargetWorkspacePath_no_file_call path :
  only_calls (fun e : @Event URI => is_fileCall e = false)
    (isValidTargetWorkspacePath path).
Proof. unfold isValidTargetWorkspacePath. only_calls_auto. Qed.

(** Without a workspace file open, [saveAndEnterWorkspace] rejects with
    [null] once the target check has been started: it makes the calls of
    the check and no other, so nothing is saved and nothing entered. *)
Theorem saveAndEnterWorkspace_without_workspace w path :
  configuration (getWorkspace w) = None ->
  run (saveAndEnterWorkspace path) w
  = ((run (isValidTargetWorkspacePath path) w).1, Rejected RejectNull).
Proof.
  intros Hconf. rewrite saveAndEnterWorkspace_goes_on.
  unfold getCurrentWorkspaceIdentifier. cbv zeta. rewrite Hconf.
  unfold run, bind, unawaited.
  by destruct (isValidTargetWorkspacePath path w _) as [s' settled].
Qed.

(** [saveAndEnterWorkspace] onto the location of the workspace file that is
    open calls the file service for nothing, and still, outside tests, stops
    the extension host and asks the host to enter that location. *)
Theorem saveAndEnterWorkspace_same_location w location path :
  configuration (getWorkspace w) = Some location ->
  isEqual location path = true ->
  extensionTestsLocationURI w = None ->
  Forall (fun e => is_fileCall e = false) (run (saveAndEnterWorkspace path) w).1 /\
  EvStopExtensionHost ∈ (run (saveAndEnterWorkspace path) w).1 /\
  EvEnterWorkspace path ∈ (run (saveAndEnterWorkspace path) w).1.
Proof.
  intros Hconf Hsame Htests. rewrite saveAndEnterWorkspace_goes_on.
  unfold getCurrentWorkspaceIdentifier. cbv zeta. rewrite Hconf.
  unfold run, bind, unawaited, saveWorkspaceAs. cbn [configPath].
  rewrite Hsame. unfold ret.
  destruct (isValidTargetWorkspacePath_no_file_call path w
              {| trace := []; extensionHostStarted := false |})
    as (checked & E1 & Hchecked).
  destruct (isValidTargetWorkspacePath path w _) as [s1 settled]. cbn in E1.
  destruct (enterWorkspace_entering_calls path w s1) as (entering & E2 & Hentering).
  destruct (enterWorkspace_first_calls w s1 path Htests) as (rest & E3).
  destruct (enterWorkspace path w s1) as [s2 r2]. cbn in *.
  rewrite E2, E1. split; [|split].
  - apply Forall_app. split; [done|].
    eapply Forall_impl; [exact Hentering|]. intros e He. by destruct e.
  - rewrite <- E1, <- E2, E3. apply elem_of_app. right. apply elem_of_cons. by left.
  - rewrite <- E1, <- E2, E3. apply elem_of_app. right.
    apply elem_of_cons. right. apply elem_of_cons. by left.
Qed.

(** [saveWorkspaceAs] to another location reads the workspace file once and
    writes its contents, rewritten for the new location, to the target with
    overwrite on; when the read fails nothing is written, and the failure
    of the read, or else of the write, is its own. *)
Theorem saveWorkspaceAs_other_target w workspace target :
  isEqual (configPath workspace) target = false ->
  (forall r,
      resolveContent w (configPath workspace) = Rejected r ->
      run (saveWorkspaceAs workspace target) w
      = ([EvResolveContent (configPath workspace)], Rejected r)) /\
  (forall raw,
      resolveContent w (configPath workspace) = Resolved raw ->
      let contents :=
        rewriteWorkspaceFileForNewLocation raw (configPath workspace) target in
      run (saveWorkspaceAs workspace target) w
      = ([EvResolveContent (configPath workspace); EvCreateFile target contents true],
         createFile w target contents)).
Proof.
  intros Hother. unfold saveWorkspaceAs. rewrite Hother. promise_eval.
  split; [intros r Hread | intros raw Hread]; by rewrite Hread.
Qed.

Lemma isValidTargetWorkspacePath_no_entering_call path :
  only_calls (fun e : @Event URI => is_enteringCall e = false)
    (isValidTargetWorkspacePath path).
Proof. unfold isValidTargetWorkspacePath. only_calls_auto. Qed.

Lemma saveWorkspaceAs_no_entering_call workspace target :
  only_calls (fun e : @Event URI => is_enteringCall e = false)
    (saveWorkspaceAs workspace target).
Proof. unfold saveWorkspaceAs. only_calls_auto. Qed.

(** What [saveAndEnterWorkspace] and [createAndEnterWorkspace] do up to the
    save, as long as the save is rejected. *)
Lemma rejected_save_stops w (before : M unit) workspace target r :
  only_calls (fun e : @Event URI => is_enteringCall e = false) before ->
  (run (saveWorkspaceAs workspace target) w).2 = Rejected r ->
  forall s,
    (exists s', before w s = (s', Resolved tt)) ->
    (bind before (fun _ => bind (saveWorkspaceAs workspace target)
                              (fun _ => enterWorkspace target)) w s).2 = Rejected r /\
    exists calls,
      trace (bind before (fun _ => bind (saveWorkspaceAs workspace target)
                                     (fun _ => enterWorkspace target)) w s).1
      = trace s ++ calls /\
      Forall (fun e => is_enteringCall e = false) calls.
Proof.
  intros Hbefore Hsave s [s' Hs']. unfold bind at 1 3. 
  destruct (Hbefore w s) as (c1 & E1 & F1). rewrite Hs' in *. cbn in E1.
  unfold bind. rewrite saveWorkspaceAs_from. rewrite Hsave. cbn.
  split; [done|].
  destruct (saveWorkspaceAs_no_entering_call workspace target w
              {| trace := []; extensionHostStarted := false |}) as (c2 & E2 & F2).
  unfold run. destruct (saveWorkspaceAs workspace target w _) as [s2 r2].
  cbn [fst snd trace] in *. rewrite app_nil_l in E2.
  exists (c1 ++ c2). rewrite E1, E2, app_assoc. split; [done|]. by apply Forall_app.
Qed.

(** Entering waits for the save: when the save-as of [saveAndEnterWorkspace]
    or of a [createAndEnterWorkspace] with a target is rejected, the method
    rejects with the same and has made no call of entering, so the
    extension host is not stopped and the host is not asked; the same holds
    when the creation of the untitled workspace is rejected. *)
Theorem rejected_save_is_not_entered w path r :
  (forall workspaceIdentifier,
      getCurrentWorkspaceIdentifier w = Some workspaceIdentifier ->
      (run (saveWorkspaceAs workspaceIdentifier path) w).2 = Rejected r ->
      (run (saveAndEnterWorkspace path) w).2 = Rejected r /\
      Forall (fun e => is_enteringCall e = false) (run (saveAndEnterWorkspace path) w).1) /\
  (forall fs untitled,
      createUntitledWorkspace w fs (remoteAuthority w) = Resolved untitled ->
      (run (saveWorkspaceAs untitled path) w).2 = Rejected r ->
      (run (createAndEnterWorkspace fs (Some path)) w).2 = Rejected r /\
      Forall (fun e => is_enteringCall e = false)
        (run (createAndEnterWorkspace fs (Some path)) w).1) /\
  (forall fs target,
      createUntitledWorkspace w fs (remoteAuthority w) = Rejected r ->
      (run (createAndEnterWorkspace fs target) w).2 = Rejected r /\
      Forall (fun e => is_enteringCall e = false)
        (run (createAndEnterWorkspace fs target) w).1).
Proof.
  split; [|split].
  - intros workspaceIdentifier Hid Hsave.
    rewrite saveAndEnterWorkspace_goes_on, Hid.
    set (before := bind (unawaited (isValidTargetWorkspacePath path))
                     (fun _ => ret tt) : M unit).
    set (s0 := {| trace := []; extensionHostStarted := false |} : @Session URI).
    assert (only_calls (fun e : @Event URI => is_enteringCall e = false) before) as Hbefore.
    { subst before. only_calls_auto. apply isValidTargetWorkspacePath_no_entering_call. }
    assert (exists s', before w s0 = (s', Resolved tt)) as Hdone.
    { subst before. unfold bind, unawaited, ret.
      destruct (isValidTargetWorkspacePath path w _). by eexists. }
    destruct (rejected_save_stops w before workspaceIdentifier path r Hbefore Hsave s0 Hdone)
      as (Hr & calls & E & Hcalls).
    + subst before s0. revert Hr E. unfold run, bind, unawaited, ret.
      destruct (isValidTargetWorkspacePath path w _) as [s1 r1].
      destruct (saveWorkspaceAs workspaceIdentifier path w s1) as [s2 [[]|r2]];
        [destruct (enterWorkspace path w s2)|]; cbn; intros Hr E; by rewrite ?E.
  - intros fs untitled Hcreate Hsave.
    rewrite createAndEnterWorkspace_goes_on.
    set (before := bind (unawaited (isValidTargetWorkspacePath path))
                     (fun _ => emit (EvCreateUntitledWorkspace fs (remoteAuthority w)))
                   : M unit).
    set (s0 := {| trace := []; extensionHostStarted := false |} : @Session URI).
    assert (only_calls (fun e : @Event URI => is_enteringCall e = false) before) as Hbefore.
    { subst before. only_calls_auto. apply isValidTargetWorkspacePath_no_entering_call. }
    assert (exists s', before w s0 = (s', Resolved tt)) as Hdone.
    { subst before. unfold bind, unawaited, emit.
      destruct (isValidTargetWorkspacePath path w _). by eexists. }
    destruct (rejected_save_stops w before untitled path r Hbefore Hsave s0 Hdone)
      as (Hr & calls & E & Hcalls).
    + subst before s0. revert Hr E. unfold run, bind, unawaited, call, emit. rewrite Hcreate.
      destruct (isValidTargetWorkspacePath path w _) as [s1 r1].
      destruct (saveWorkspaceAs untitled path w _) as [s2 [[]|r2]];
        [destruct (enterWorkspace path w s2)|]; cbn; intros Hr E; by rewrite ?E.
  - intros fs target Hcreate. unfold createAndEnterWorkspace, run, bind, ask, call.
    destruct target as [path'|].
    + destruct (isValidTargetWorkspacePath_no_entering_call path' w
                  {| trace := []; extensionHostStarted := false |}) as (calls & E & Hcalls).
      unfold unawaited, bind, ret. destruct (isValidTargetWorkspacePath path' w _) as [s1 r1].
      cbn in *. rewrite Hcreate. cbn. split; [done|]. rewrite E.
      apply Forall_app. split; [done|]. by repeat constructor.
    + unfold ret. cbn. rewrite Hcreate. cbn. split; [done|]. by repeat constructor.
Qed.

(** *** The shutdown listener *)

(** The shutdown listener hands the event at most one veto, and none at all
    exactly when the reason is neither the closing of the window nor the
    loading of another workspace, or no workspace file is open, or the open
    workspace file is not under the untitled workspaces home. *)
Theorem onBeforeShutdown_vetoes w reason :
  (length (onBeforeShutdown reason w) <= 1)%nat /\
  (onBeforeShutdown reason w = [] <->
   (reason <> LOAD /\ reason <> CLOSE)
   \/ configuration (getWorkspace w) = None
   \/ (exists location,
         configuration (getWorkspace w) = Some location /\
         isEqualOrParent location (untitledWorkspacesHome w) = false)).
Proof.
  unfold onBeforeShutdown, saveUntitedBeforeShutdown, getCurrentWorkspaceIdentifier.
  cbv zeta.
  destruct (negb (bool_decide (reason = LOAD)) && negb (bool_decide (reason = CLOSE)))
    eqn:Hreason.
  - split; [cbn; lia|]. split; [|done]. intros _. left.
    apply andb_true_iff in Hreason as [H1 H2].
    apply negb_true_iff, bool_decide_eq_false in H1, H2. done.
  - assert (~ (reason <> LOAD /\ reason <> CLOSE)) as Hengaged.
    { intros [H1 H2]. apply andb_false_iff in Hreason as [H|H];
        apply negb_false_iff, bool_decide_eq_true in H; done. }
    destruct (configuration (getWorkspace w)) as [location|] eqn:Hconf; cbn [configPath].
    + destruct (isEqualOrParent location (untitledWorkspacesHome w)) eqn:Hhome; cbn [negb].
      * split; [cbn; lia|]. split; [done|].
        intros [? | [? | (l & [= <-] & ?)]]; [done|done|congruence].
      * split; [cbn; lia|]. split; [|done]. intros _. right. right. by exists location.
    + split; [cbn; lia|]. split; [|done]. intros _. right. by left.
Qed.

(** When the last window of a Linux or Windows session closes over an
    untitled workspace, the guard asks for the window count and lets the
    shutdown go on: no dialog is shown and the untitled workspace is not
    deleted.  In every other case that reaches the guard (on a Mac, with
    another window open, or when another workspace is loading) its second
    call is the dialog. *)
Theorem saveUntitedBeforeShutdown_last_window w reason workspaceIdentifier :
  reason = CLOSE \/ reason = LOAD ->
  getCurrentWorkspaceIdentifier w = Some workspaceIdentifier ->
  isEqualOrParent (configPath workspaceIdentifier) (untitledWorkspacesHome w) = true ->
  exists guard,
    saveUntitedBeforeShutdown reason w = Some guard /\
    let lastWindow :=
      reason = CLOSE /\ isMacintosh (platform w) = false /\ getWindowCount w = 1 in
    (lastWindow -> run guard w = ([EvGetWindowCount], Resolved false)) /\
    (~ lastWindow ->
     exists labels cancelId,
       (run guard w).1 !! 1%nat
       = Some (EvDialogShow SeverityWarning
                 "Do you want to save your workspace configuration as a file?"
                 labels "Save your workspace if you plan to open it again." cancelId)).
Proof.
  intros Hreason Hid Huntitled.
  unfold saveUntitedBeforeShutdown. rewrite Hid, Huntitled.
  assert (negb (bool_decide (reason = LOAD)) && negb (bool_decide (reason = CLOSE)) = false)
    as ->.
  { destruct Hreason as [-> | ->]; done. }
  cbn [negb]. eexists. split; [reflexivity|]. cbv zeta. split.
  - intros (-> & Hmac & Hcount). promise_eval. by rewrite Hmac, Hcount.
  - intros Hnot.
    assert (bool_decide (reason = CLOSE) && negb (isMacintosh (platform w))
            && (getWindowCount w =? 1) = false) as Hask.
    { destruct (bool_decide_reflect (reason = CLOSE)) as [Hr|Hr]; [|done].
      destruct (isMacintosh (platform w)) eqn:Hmac; [done|]. cbn.
      apply Z.eqb_neq. intros Hone. by apply Hnot. }
    unfold pickNewWorkspacePath. promise_eval. rewrite Hask. cbn.
    do 2 eexists.
    destruct (js_index (confirmButtons (platform w)) (dialogService_show w)) as [button|];
      cbn; [|reflexivity].
    destruct (result button); cbn; [|reflexivity|reflexivity].
    destruct (showSaveDialog w) as [target|]; cbn; [|reflexivity].
    rewrite saveWorkspaceAs_from. unfold run.
    destruct (saveWorkspaceAs workspaceIdentifier target w _) as [s1 [[]|r]]; cbn;
      rewrite <- ?app_assoc; reflexivity.
Qed.

(** On every platform the dialog is given, as the button of a dismissal, the
    position of the Cancel button among its buttons; a dialog that answers
    with that position vetoes the shutdown, and the guard has then made no
    call beyond the window count and the dialog. *)
Theorem saveUntitedBeforeShutdown_dismissed w reason workspaceIdentifier :
  reason = CLOSE \/ reason = LOAD ->
  getCurrentWorkspaceIdentifier w = Some workspaceIdentifier ->
  isEqualOrParent (configPath workspaceIdentifier) (untitledWorkspacesHome w) = true ->
  (reason = CLOSE -> isMacintosh (platform w) = false -> getWindowCount w <> 1) ->
  let buttons := confirmButtons (platform w) in
  let cancelId := js_indexOf (fun b => bool_decide (result b = CANCEL)) buttons in
  exists guard,
    saveUntitedBeforeShutdown reason w = Some guard /\
    (run guard w).1 !! 1%nat
    = Some (EvDialogShow SeverityWarning
              "Do you want to save your workspace configuration as a file?"
              (map label buttons) "Save your workspace if you plan to open it again."
              cancelId) /\
    js_index buttons cancelId = Some {| label := "Cancel"; result := CANCEL |} /\
    (dialogService_show w = cancelId ->
     (run guard w).2 = Resolved true /\ length (run guard w).1 = 2%nat).
Proof.
  intros Hreason Hid Huntitled Hprompt buttons cancelId. subst buttons cancelId.
  unfold saveUntitedBeforeShutdown. rewrite Hid, Huntitled.
  assert (negb (bool_decide (reason = LOAD)) && negb (bool_decide (reason = CLOSE)) = false)
    as ->.
  { destruct Hreason as [-> | ->]; done. }
  cbn [negb].
  assert (bool_decide (reason = CLOSE) && negb (isMacintosh (platform w))
          && (getWindowCount w =? 1) = false) as Hask.
  { destruct (bool_decide_reflect (reason = CLOSE)) as [Hr|Hr]; [|done].
    destruct (isMacintosh (platform w)) eqn:Hmac; [done|]. cbn.
    apply Z.eqb_neq. by apply Hprompt. }
  eexists. split; [reflexivity|].
  unfold pickNewWorkspacePath. promise_eval. rewrite Hask. cbn.
  split; [|split].
  - destruct (js_index (confirmButtons (platform w)) (dialogService_show w)) as [button|];
      cbn; [|reflexivity].
    destruct (result button); cbn; [|reflexivity|reflexivity].
    destruct (showSaveDialog w) as [target|]; cbn; [|reflexivity].
    rewrite saveWorkspaceAs_from. unfold run.
    destruct (saveWorkspaceAs workspaceIdentifier target w _) as [s1 [[]|r]]; cbn;
      rewrite <- ?app_assoc; reflexivity.
  - by destruct (platform w).
  - intros ->. by destruct (platform w).
Qed.

End Properties.

(** ** The properties on concrete worlds *)

(** Saving the team workspace to its own location, spelled in another case. *)
Lemma saveWorkspaceAs_same_target_no_io_witness :
  run (saveWorkspaceAs teamWorkspace "/WS/Team.code-workspace") (quietWorld singleFolder)
  = ([], Resolved tt).
Proof. apply saveWorkspaceAs_same_target_no_io. right. reflexivity. Defined.

(** The host refuses: one start of the extension host, no migration. *)
Lemma enterWorkspace_host_rejects_witness :
  (run (enterWorkspace "/ws/team.code-workspace") rejectingHost).2
  = Rejected (newError "refused") /\
  length (List.filter is_startExtensionHost
            ((run (enterWorkspace "/ws/team.code-workspace") rejectingHost).1)) = 1%nat /\
  List.filter is_migration
    ((run (enterWorkspace "/ws/team.code-workspace") rejectingHost).1) = [].
Proof. apply enterWorkspace_host_rejects; reflexivity. Defined.

(** A deletion range past the last folder and nothing to add. *)
Lemma updateFolders_nothing_to_do_witness :
  run (updateFolders 1 (Some 3) (Some []) None) (quietWorld untitledWorkspace1)
  = ([], Resolved tt).
Proof. apply updateFolders_nothing_to_do; [reflexivity | right; reflexivity]. Defined.

(** The team workspace is open in the other window; [mine] is open nowhere. *)
Lemma isValidTargetWorkspacePath_iff_not_opened_witness :
  (run (isValidTargetWorkspacePath "/WS/TEAM.code-workspace")
       (promptWorld 1 None (Resolved tt))).2 = Resolved false /\
  (run (isValidTargetWorkspacePath "/ws/mine.code-workspace")
       (promptWorld 1 None (Resolved tt))).2 = Resolved true.
Proof.
  split.
  - apply (proj1 (isValidTargetWorkspacePath_iff_not_opened _ _)).
    exists otherWindow, teamWorkspace.
    split; [apply list_elem_of_In; cbn; tauto | split; reflexivity].
  - apply (proj2 (isValidTargetWorkspacePath_iff_not_opened _ _)).
    intros (window & workspace & Hin & Hw & Hkey).
    apply list_elem_of_In in Hin. cbn in Hin.
    destruct Hin as [<- | [<- | []]]; injection Hw as <-; vm_compute in Hkey; discriminate.
Defined.

(** Of the four workspace keys only the window-scoped one is copied. *)
Lemma migrate_from_folder_copies_window_settings_witness :
  exists settings : gmap string JsonValue,
    (run (migrate teamWorkspace) (quietWorld singleFolder)).1
    = [EvMigrateStorage teamWorkspace;
       EvJsonWrite "/ws/team.code-workspace" "settings" settings true] /\
    settings !! "editor.fontSize" = Some (JString "editor.fontSize") /\
    settings !! "telemetry.machineId" = None /\
    settings !! "my.own" = None.
Proof.
  destruct (migrate_from_folder_copies_window_settings (quietWorld singleFolder) teamWorkspace)
    as (settings & Hcalls & Hin & Hout); [reflexivity | reflexivity |].
  exists settings. split; [exact Hcalls|]. split; [|split].
  - apply Hin. split; [apply list_elem_of_In; cbn; tauto|].
    split; [|reflexivity]. exists {| scope := Some WINDOW |}. split; reflexivity.
  - apply Hout. vm_compute. discriminate.
  - apply Hout. vm_compute. exact I.
Defined.

(** Adding [/a; /b; /a] to a window without folders. *)
Lemma doAddFolders_dedups_by_first_occurrence_witness :
  (run (doAddFolders [dataA; dataB; dataA] None None) (quietWorld noFolders)).1 !! 0%nat
  = Some (EvCreateUntitledWorkspace [dataA; dataB] None).
Proof.
  apply (proj1 (doAddFolders_dedups_by_first_occurrence
                  (quietWorld noFolders) None None eq_refl eq_refl)).
  vm_compute. discriminate.
Defined.

(** The failing edit is notified and resolves, or rejects on request. *)
Lemma folder_edit_failure_is_notified_witness :
  (run (updateFolders 0 (Some 1) (Some [dataA]) None) failingEdit).2 = Resolved tt /\
  (run (addFolders [dataA] (Some true)) failingEdit).2 = Rejected (RejectError dirtyFile).
Proof.
  split.
  - apply (folder_edit_failure_is_notified failingEdit
             (CallUpdateFolders 0 (Some 1) (Some [dataA]) None)
             (EditUpdateFolders [dataA] ["/proj"] (Some 0)) dirtyFile);
      [apply list_elem_of_In; vm_compute; left; reflexivity | reflexivity | reflexivity].
  - apply (folder_edit_failure_is_notified failingEdit
             (CallAddFolders [dataA] (Some true))
             (EditAddFolders [dataA] None) dirtyFile);
      [apply list_elem_of_In; vm_compute; left; reflexivity | reflexivity
      | reflexivity | reflexivity].
Defined.

(** Replacing [/proj] by [/a] and [/b]. *)
Lemma updateFolders_replaces_single_folder_witness :
  let call := updateFolders 0 (Some 1) (Some [dataA; dataB]) None in
  run call (quietWorld singleFolder)
  = run (createAndEnterWorkspace [dataA; dataB] None) (quietWorld singleFolder) /\
  (run call (quietWorld singleFolder)).1 !! 0%nat
  = Some (EvCreateUntitledWorkspace [dataA; dataB] None) /\
  (run call (quietWorld singleFolder)).1 !! 2%nat
  = Some (EvEnterWorkspace "/untitled/2/workspace.json").
Proof.
  intros call.
  destruct (updateFolders_replaces_single_folder
              (quietWorld singleFolder) 0 1 [dataA; dataB] None folderF)
    as (Hrun & Hfirst & _ & Henter & _);
    [reflexivity | reflexivity | vm_compute; discriminate | discriminate |].
  split; [exact Hrun|]. split; [exact Hfirst|].
  apply (Henter {| id := "untitled-2"; configPath := "/untitled/2/workspace.json" |});
    reflexivity.
Defined.

(** The five ways through the prompt, on Linux with two windows open. *)
Lemma saveUntitedBeforeShutdown_prompt_flow_witness :
  let mine := "/ws/mine.code-workspace" in
  let cancelled := promptWorld 1 None (Resolved tt) in
  let discarded := promptWorld 0 None (Resolved tt) in
  let unpicked := promptWorld 2 None (Resolved tt) in
  let saved := promptWorld 2 (Some mine) (Resolved tt) in
  let failed := promptWorld 2 (Some mine) (Rejected (newError "EACCES")) in
  (exists prompt,
      saveUntitedBeforeShutdown CLOSE cancelled = Some prompt /\
      (run prompt cancelled).2 = Resolved true) /\
  (exists prompt,
      saveUntitedBeforeShutdown CLOSE discarded = Some prompt /\
      (run prompt discarded).2 = Resolved false /\
      EvDeleteUntitledWorkspace untitled1 ∈ (run prompt discarded).1) /\
  (exists prompt,
      saveUntitedBeforeShutdown CLOSE unpicked = Some prompt /\
      (run prompt unpicked).2 = Resolved true) /\
  (exists prompt,
      saveUntitedBeforeShutdown CLOSE saved = Some prompt /\
      (run prompt saved).2 = Resolved false /\
      exists before,
        (run prompt saved).1
        = before ++ [EvGetWorkspaceIdentifier mine;
                     EvAddRecentlyOpened mine (getWorkspaceIdentifier saved mine);
                     EvDeleteUntitledWorkspace untitled1]) /\
  (exists prompt,
      saveUntitedBeforeShutdown CLOSE failed = Some prompt /\
      (run prompt failed).2 = Resolved false).
Proof.
  intros mine cancelled discarded unpicked saved failed.
  assert (forall choice picked written,
             CLOSE = CLOSE ->
             isMacintosh (platform (promptWorld choice picked written)) = false ->
             getWindowCount (promptWorld choice picked written) <> 1) as Hseveral.
  { intros choice picked written _ _. vm_compute. discriminate. }
  repeat split.
  - destruct (saveUntitedBeforeShutdown_prompt_flow cancelled CLOSE untitled1)
      as (prompt & Hprompt & Hcancel & _);
      [by left | reflexivity | reflexivity | apply Hseveral |].
    exists prompt. split; [exact Hprompt|]. apply Hcancel. reflexivity.
  - destruct (saveUntitedBeforeShutdown_prompt_flow discarded CLOSE untitled1)
      as (prompt & Hprompt & _ & Hdiscard & _);
      [by left | reflexivity | reflexivity | apply Hseveral |].
    exists prompt. split; [exact Hprompt|]. apply Hdiscard. reflexivity.
  - destruct (saveUntitedBeforeShutdown_prompt_flow unpicked CLOSE untitled1)
      as (prompt & Hprompt & _ & _ & Hunpicked & _);
      [by left | reflexivity | reflexivity | apply Hseveral |].
    exists prompt. split; [exact Hprompt|]. apply Hunpicked; reflexivity.
  - destruct (saveUntitedBeforeShutdown_prompt_flow saved CLOSE untitled1)
      as (prompt & Hprompt & _ & _ & _ & Hsaved & _);
      [by left | reflexivity | reflexivity | apply Hseveral |].
    exists prompt. split; [exact Hprompt|]. apply (Hsaved eq_refl mine); reflexivity.
  - destruct (saveUntitedBeforeShutdown_prompt_flow failed CLOSE untitled1)
      as (prompt & Hprompt & _ & _ & _ & _ & Hfailed);
      [by left | reflexivity | reflexivity | apply Hseveral |].
    exists prompt. split; [exact Hprompt|].
    apply (Hfailed eq_refl mine (newError "EACCES")); reflexivity.
Defined.

(** ** Where the code and the specification part *)

(** C2 as specified fails: the folders to add reach the new workspace as
    passed.  [/a] and [/A] have one comparison key and are both kept; the
    replaced folder [/proj], passed again, is in the new workspace. *)
Lemma updateFolders_replace_not_as_specified :
  ~ replaces_single_folder_as_specified (quietWorld singleFolder) 0 1 dataA dataA' /\
  ~ replaces_single_folder_as_specified (quietWorld singleFolder) 0 1 dataF dataB.
Proof.
  split; intros H;
    (destruct (H folderF eq_refl eq_refl) as (created & Hfirst & Hdistinct & Hfree);
     [vm_compute; discriminate|]);
    vm_compute in Hfirst; injection Hfirst as <-.
  - vm_compute in Hdistinct. discriminate.
  - inversion Hfree as [|? ? Hhead _]. vm_compute in Hhead. discriminate.
Qed.

(** C1 on a target that another window has open: the validity check
    resolves to [false], and yet [saveAndEnterWorkspace] and
    [createAndEnterWorkspace] resolve, having written the workspace file to
    the target and asked the host to enter it. *)
Theorem enter_target_opened_in_another_window :
  let w := promptWorld 1 None (Resolved tt) in
  let target := "/ws/team.code-workspace" in
  (run (isValidTargetWorkspacePath target) w).2 = Resolved false /\
  ((run (saveAndEnterWorkspace target) w).2 = Resolved tt /\
   EvCreateFile target "{}" true ∈ (run (saveAndEnterWorkspace target) w).1 /\
   EvEnterWorkspace target ∈ (run (saveAndEnterWorkspace target) w).1) /\
  ((run (createAndEnterWorkspace [dataA] (Some target)) w).2 = Resolved tt /\
   EvCreateFile target "{}" true ∈ (run (createAndEnterWorkspace [dataA] (Some target)) w).1 /\
   EvEnterWorkspace target ∈ (run (createAndEnterWorkspace [dataA] (Some target)) w).1).
Proof.
  intros w target.
  repeat split; try reflexivity;
    apply list_elem_of_In; vm_compute; repeat (first [left; reflexivity | right]).
Qed.

(** ** The further properties on concrete worlds *)

(** The host declines: the extension host stays stopped. *)
Lemma enterWorkspace_host_declines_witness :
  run (enterWorkspace "/ws/team.code-workspace") decliningHost
  = ([EvStopExtensionHost; EvEnterWorkspace "/ws/team.code-workspace"], Resolved tt).
Proof. apply enterWorkspace_host_declines; reflexivity. Defined.

(** Entering the team workspace from the single folder: every step, the
    settings write included. *)
Lemma enterWorkspace_steps_in_order_witness :
  (run (enterWorkspace "/ws/team.code-workspace") (quietWorld singleFolder)).2 = Resolved tt /\
  length (run (enterWorkspace "/ws/team.code-workspace") (quietWorld singleFolder)).1
  = 7%nat.
Proof.
  destruct (enterWorkspace_steps_in_order (quietWorld singleFolder) "/ws/team.code-workspace"
              {| workspace := {| id := "/ws/team.code-workspace";
                                  configPath := "/ws/team.code-workspace" |};
                 backupPath := Some "/backups/ws/team.code-workspace" |})
    as (settingsCalls & Hrun & _ & Hfolder); try reflexivity.
  destruct Hfolder as [settings ->]; [reflexivity|].
  rewrite Hrun. split; reflexivity.
Defined.

(** The context service fails after it has started the extension host: the
    failure handler does not start it a second time. *)
Lemma enterWorkspace_starts_extension_host_once_witness :
  (run (enterWorkspace "/ws/team.code-workspace") lateFailure).1 !! 0%nat
  = Some EvStopExtensionHost /\
  length (List.filter is_stopExtensionHost
            ((run (enterWorkspace "/ws/team.code-workspace") lateFailure).1)) = 1%nat /\
  length (List.filter is_startExtensionHost
            ((run (enterWorkspace "/ws/team.code-workspace") lateFailure).1)) = 1%nat.
Proof.
  apply enterWorkspace_starts_extension_host_once; [reflexivity|].
  vm_compute. discriminate.
Defined.

(** The storage cannot be migrated: restart, and nothing after it. *)
Lemma enterWorkspace_migration_failure_witness :
  run (enterWorkspace "/ws/team.code-workspace") storageFails
  = ([EvStopExtensionHost; EvEnterWorkspace "/ws/team.code-workspace";
      EvMigrateStorage {| id := "/ws/team.code-workspace";
                          configPath := "/ws/team.code-workspace" |};
      EvStartExtensionHost],
     Rejected (newError "storage")).
Proof.
  apply (proj1 (enterWorkspace_migration_failure storageFails "/ws/team.code-workspace"
                  {| workspace := {| id := "/ws/team.code-workspace";
                                      configPath := "/ws/team.code-workspace" |};
                     backupPath := Some "/backups/ws/team.code-workspace" |}
                  (newError "storage") eq_refl eq_refl)).
  reflexivity.
Defined.

(** The settings write of an entering is no file call. *)
Lemma enterWorkspace_calls_nothing_else_witness :
  is_enteringCall (EvStopExtensionHost (URI:=string)) = true /\
  is_fileCall (EvStopExtensionHost (URI:=string)) = false /\
  is_userFacing (EvStopExtensionHost (URI:=string)) = false /\
  is_folderEdit (EvStopExtensionHost (URI:=string)) = false.
Proof.
  apply (enterWorkspace_calls_nothing_else (quietWorld singleFolder)
           "/ws/team.code-workspace").
  apply list_elem_of_In. vm_compute. left. reflexivity.
Defined.

(** Under tests the untitled workspace is created and entering refused. *)
Lemma entering_is_refused_in_tests_witness :
  run (enterWorkspace "/ws/team.code-workspace") underTests
  = ([], Rejected (newError "Entering a new workspace is not possible in tests.")) /\
  run (createAndEnterWorkspace [dataA] None) underTests
  = ([EvCreateUntitledWorkspace [dataA] None],
     Rejected (newError "Entering a new workspace is not possible in tests.")).
Proof.
  destruct (entering_is_refused_in_tests underTests "/tests" eq_refl) as [Henter Hcreate].
  split; [apply Henter|].
  apply (Hcreate [dataA] {| id := "untitled-2"; configPath := "/untitled/2/workspace.json" |}).
  reflexivity.
Defined.

(** From the single folder the settings are written; from the workspace
    window the storage migration is the only call. *)
Lemma migrate_writes_settings_only_from_folder_witness :
  (exists settings,
      run (migrate teamWorkspace) (quietWorld singleFolder)
      = ([EvMigrateStorage teamWorkspace;
          EvJsonWrite "/ws/team.code-workspace" "settings" settings true], Resolved tt)) /\
  run (migrate teamWorkspace) (quietWorld untitledWorkspace1)
  = ([EvMigrateStorage teamWorkspace], Resolved tt).
Proof.
  split.
  - apply (proj1 (migrate_writes_settings_only_from_folder
                    (quietWorld singleFolder) teamWorkspace)).
    split; reflexivity.
  - apply (proj2 (migrate_writes_settings_only_from_folder
                    (quietWorld untitledWorkspace1) teamWorkspace)).
    intros [_ Hstate]. vm_compute in Hstate. discriminate.
Defined.

(** Removing [/PROJ] and [/x] from the window of [/proj] enters an empty
    workspace; removing [/x] alone is delegated. *)
Lemma removeFolders_of_single_folder_witness :
  (run (removeFolders ["/x"; "/PROJ"] None) (quietWorld singleFolder)).1 !! 0%nat
  = Some (EvCreateUntitledWorkspace [] None) /\
  run (removeFolders ["/x"] None) (quietWorld singleFolder)
  = run (delegate (EditRemoveFolders ["/x"]) false) (quietWorld singleFolder).
Proof.
  destruct (removeFolders_of_single_folder (quietWorld singleFolder) folderF
              ["/x"; "/PROJ"] None eq_refl eq_refl) as [Hcovered _].
  destruct (removeFolders_of_single_folder (quietWorld singleFolder) folderF
              ["/x"] None eq_refl eq_refl) as [_ Hother].
  split.
  - apply Hcovered. exists "/PROJ".
    split; [apply list_elem_of_In; cbn; tauto | reflexivity].
  - apply Hother. intros (folder & Hin & Hkey).
    apply list_elem_of_In in Hin. cbn in Hin. destruct Hin as [<- | []].
    vm_compute in Hkey. discriminate.
Defined.

(** Replacing the second of three folders by [/a] is one combined update. *)
Lemma updateFolders_in_workspace_witness :
  run (updateFolders 1 (Some 1) (Some [dataA]) None) (quietWorld threeFolders)
  = run (delegate (EditUpdateFolders [dataA] ["/b"] (Some 1)) false)
        (quietWorld threeFolders).
Proof.
  destruct (updateFolders_in_workspace (quietWorld threeFolders) "/ws/team.code-workspace"
              1 (Some 1) [dataA] None eq_refl) as (_ & Hboth & _); [discriminate|].
  apply Hboth. vm_compute. discriminate.
Defined.

(** A failing removal in the workspace window: the edit and its notification. *)
Lemma folder_calls_in_workspace_only_edit_witness :
  Forall (fun e => is_folderEdit e || is_notification e = true)
    (run (perform (CallRemoveFolders ["/proj"] None)) failingEdit).1.
Proof.
  apply (folder_calls_in_workspace_only_edit failingEdit "/untitled/1/workspace.json").
  reflexivity.
Defined.


(** Nothing to add: nothing done without a workspace file, an empty
    addition delegated with one. *)
Lemma addFolders_of_nothing_witness :
  run (addFolders [] None) (quietWorld singleFolder) = ([], Resolved tt) /\
  run (addFolders [] None) (quietWorld threeFolders)
  = run (delegate (EditAddFolders [] None) false) (quietWorld threeFolders).
Proof.
  split.
  - apply (proj1 (addFolders_of_nothing (quietWorld singleFolder) None));
      [reflexivity | right; by exists folderF].
  - apply (proj2 (addFolders_of_nothing (quietWorld threeFolders) None)
             "/ws/team.code-workspace").
    reflexivity.
Defined.

(** [updateFolders(-1, 1)] on three folders deletes nothing. *)
Lemma updateFolders_empty_deletion_range_witness :
  run (updateFolders (-1) (Some 1) None None) (quietWorld threeFolders) = ([], Resolved tt).
Proof.
  apply (proj2 (updateFolders_empty_deletion_range (quietWorld threeFolders) (-1) 1 None None
                  ltac:(right; right; right; vm_compute; repeat split; discriminate)));
    by left.
Defined.

(** [updateFolders(1, 5)] on three folders removes the second and third. *)
Lemma updateFolders_deletes_by_position_witness :
  run (updateFolders 1 (Some 5) None (Some true)) (quietWorld threeFolders)
  = run (delegate (EditRemoveFolders ["/b"; "/c"]) false) (quietWorld threeFolders).
Proof.
  apply (updateFolders_deletes_by_position (quietWorld threeFolders)
           "/ws/team.code-workspace" 1 5 (Some true)); [reflexivity|lia|lia|].
  vm_compute. discriminate.
Defined.

(** [updateFolders(1, -2)] on three folders removes the second. *)
Lemma updateFolders_negative_deleteCount_witness :
  run (updateFolders 1 (Some (-2)) None None) (quietWorld threeFolders)
  = run (delegate (EditRemoveFolders ["/b"]) false) (quietWorld threeFolders).
Proof.
  apply (updateFolders_negative_deleteCount (quietWorld threeFolders)
           "/ws/team.code-workspace" 1 (-2) None); [reflexivity|lia|lia|].
  vm_compute. discriminate.
Defined.

(** From the single folder there is nothing to save. *)
Lemma saveAndEnterWorkspace_without_workspace_witness :
  run (saveAndEnterWorkspace "/ws/mine.code-workspace") (quietWorld singleFolder)
  = ([EvGetWindows], Rejected RejectNull).
Proof.
  apply (saveAndEnterWorkspace_without_workspace (quietWorld singleFolder)
           "/ws/mine.code-workspace").
  reflexivity.
Defined.

(** Saving the untitled workspace onto itself. *)
Lemma saveAndEnterWorkspace_same_location_witness :
  Forall (fun e => is_fileCall e = false)
    (run (saveAndEnterWorkspace "/untitled/1/WORKSPACE.json")
         (quietWorld untitledWorkspace1)).1 /\
  EvStopExtensionHost
    ∈ (run (saveAndEnterWorkspace "/untitled/1/WORKSPACE.json")
           (quietWorld untitledWorkspace1)).1 /\
  EvEnterWorkspace "/untitled/1/WORKSPACE.json"
    ∈ (run (saveAndEnterWorkspace "/untitled/1/WORKSPACE.json")
           (quietWorld untitledWorkspace1)).1.
Proof.
  apply (saveAndEnterWorkspace_same_location (quietWorld untitledWorkspace1)
           "/untitled/1/workspace.json"); reflexivity.
Defined.

(** An unreadable workspace file is not written anywhere. *)
Lemma saveWorkspaceAs_other_target_witness :
  run (saveWorkspaceAs untitled1 "/ws/mine.code-workspace") unreadable
  = ([EvResolveContent "/untitled/1/workspace.json"], Rejected (newError "ENOENT")).
Proof.
  destruct (saveWorkspaceAs_other_target unreadable untitled1 "/ws/mine.code-workspace")
    as [Hunread _]; [reflexivity|].
  apply Hunread. reflexivity.
Defined.

(** The unreadable workspace is not entered. *)
Lemma rejected_save_is_not_entered_witness :
  (run (saveAndEnterWorkspace "/ws/mine.code-workspace") unreadable).2
  = Rejected (newError "ENOENT") /\
  Forall (fun e => is_enteringCall e = false)
    (run (saveAndEnterWorkspace "/ws/mine.code-workspace") unreadable).1.
Proof.
  apply (proj1 (rejected_save_is_not_entered unreadable "/ws/mine.code-workspace"
                  (newError "ENOENT")) untitled1); reflexivity.
Defined.

(** Quitting, and closing a titled workspace, are not vetoed. *)
Lemma onBeforeShutdown_vetoes_witness :
  onBeforeShutdown QUIT (promptWorld 1 None (Resolved tt)) = [] /\
  onBeforeShutdown CLOSE (quietWorld threeFolders) = [].
Proof.
  split.
  - apply (proj2 (onBeforeShutdown_vetoes (promptWorld 1 None (Resolved tt)) QUIT)).
    left. split; discriminate.
  - apply (proj2 (onBeforeShutdown_vetoes (quietWorld threeFolders) CLOSE)).
    right. right. exists "/ws/team.code-workspace". split; reflexivity.
Defined.

(** Closing the only window on Linux. *)
Lemma saveUntitedBeforeShutdown_last_window_witness :
  exists guard,
    saveUntitedBeforeShutdown CLOSE (quietWorld untitledWorkspace1) = Some guard /\
    run guard (quietWorld untitledWorkspace1) = ([EvGetWindowCount], Resolved false).
Proof.
  destruct (saveUntitedBeforeShutdown_last_window (quietWorld untitledWorkspace1)
              CLOSE untitled1) as (guard & Hguard & Hlast & _);
    [by left | reflexivity | reflexivity |].
  exists guard. split; [exact Hguard|]. apply Hlast. repeat split; reflexivity.
Defined.

(** The dialog of the Linux window is dismissed. *)
Lemma saveUntitedBeforeShutdown_dismissed_witness :
  exists guard,
    saveUntitedBeforeShutdown LOAD (promptWorld 1 None (Resolved tt)) = Some guard /\
    (run guard (promptWorld 1 None (Resolved tt))).2 = Resolved true.
Proof.
  destruct (saveUntitedBeforeShutdown_dismissed (promptWorld 1 None (Resolved tt))
              LOAD untitled1) as (guard & Hguard & _ & _ & Hveto);
    [by right | reflexivity | reflexivity | discriminate |].
  exists guard. split; [exact Hguard|]. apply Hveto. reflexivity.
Defined.

